(** * bp_doc_gen: the blueprint-library documentation generator

    A shallow embedding of [PythonAPI/docs/bp_doc_gen.py]: the string helpers,
    the [MarkdownFile] accumulator, the grouping and rendering done by
    [generate_pb_docs], and the top-level control flow of [main].

    Conventions.
    - A Python [str] is a [string]; a character is a code point below 256.
    - A Python [int] is a [Z].
    - Python semantics are those of CPython 3.7 or later: [dict] iterates in
      insertion order, [sorted] is stable and only uses [<]. *)

From Stdlib Require Import String Ascii List ZArith NArith Lia Bool.
From Stdlib Require Import Permutation Sorted DecimalString.
Import ListNotations.

Local Open Scope string_scope.
Local Open Scope Z_scope.

(** ** Python primitives used by the script *)

Module Py.

(** The line feed, written ['\n'] in the source. *)
Definition LF : ascii := "010"%char.
Definition nl : string := String LF EmptyString.

(** The double quote character, as a one-character string. *)
Definition dq : string := String "034"%char EmptyString.

(** Truth value of a [str]: every string but the empty one. *)
Definition truthy (s : string) : bool :=
  match s with
  | EmptyString => false
  | String _ _ => true
  end.

(** [s * n]: [n] copies of [s], none when [n <= 0]. *)
Fixpoint repeat_str (s : string) (n : nat) : string :=
  match n with
  | O => EmptyString
  | S k => s ++ repeat_str s k
  end.

Definition mul (s : string) (n : Z) : string := repeat_str s (Z.to_nat n).

(** [str.isspace] on a single code point below 256: TAB..CR, FS..US,
    SPACE, NEL and NBSP. *)
Definition isspace (c : ascii) : bool :=
  let n := N_of_ascii c in
  (((9 <=? n) && (n <=? 13)) || ((28 <=? n) && (n <=? 32))
   || (n =? 133) || (n =? 160))%N.

Fixpoint lstrip (s : string) : string :=
  match s with
  | EmptyString => EmptyString
  | String c s' => if isspace c then lstrip s' else s
  end.

Fixpoint rstrip (s : string) : string :=
  match s with
  | EmptyString => EmptyString
  | String c s' =>
      match rstrip s' with
      | EmptyString => if isspace c then EmptyString else String c EmptyString
      | r => String c r
      end
  end.

(** [s.strip()]: leading and trailing whitespace removed. *)
Definition strip (s : string) : string := rstrip (lstrip s).

(** [s[-1:]]: the last character as a string, or the empty string. *)
Fixpoint last_slice (s : string) : string :=
  match s with
  | EmptyString => EmptyString
  | String c EmptyString => s
  | String _ s' => last_slice s'
  end.

(** [str] ordering: lexicographic on code points. *)
Definition lt (a b : string) : bool := String.ltb a b.

(** [sorted(l, key=key)]: a stable sort that only asks [key x < key y].
    An element goes in front of the first one that is not smaller than it,
    so elements with equal keys keep their order. *)
Section Sorted.
Context {A K : Type} (key_lt : K -> K -> bool) (key : A -> K).

Fixpoint insert (x : A) (l : list A) : list A :=
  match l with
  | [] => [x]
  | y :: l' => if key_lt (key y) (key x) then y :: insert x l' else x :: l
  end.

Definition sorted (l : list A) : list A := fold_right insert [] l.
End Sorted.

End Py.

(** ** Module-level helpers *)

Definition COLOR_LIST : string := "#498efc".

Definition join (elem : list string) (separator : string) : string :=
  String.concat separator elem.

(** [join(elem)], the separator left to its default. *)
Definition join0 (elem : list string) : string := join elem EmptyString.

Definition color (col buf : string) : string :=
  join0 ["<font color=" ++ Py.dq; col; Py.dq ++ ">"; buf; "</font>"].

Definition italic (buf : string) : string := join0 ["_"; buf; "_"].

Definition bold (buf : string) : string := join0 ["**"; buf; "**"].

Definition parentheses (buf : string) : string := join0 ["("; buf; ")"].

Definition sub (buf : string) : string := join0 ["<sub>"; buf; "</sub>"].

Definition code (buf : string) : string := join0 ["`"; buf; "`"].

(** ** The MarkdownFile accumulator *)

Record MarkdownFile : Type := mkMarkdownFile
  { _data : string;
    _list_depth : Z;
    endl : string }.

(** Methods run in a state monad over the object they are called on. *)
Definition M (A : Type) : Type := MarkdownFile -> A * MarkdownFile.

Definition ret {A} (a : A) : M A := fun self => (a, self).

Definition bind {A B} (c : M A) (k : A -> M B) : M B :=
  fun self => let (a, self') := c self in k a self'.

Declare Scope md_scope.
Delimit Scope md_scope with md.
Notation "x <- c ;; k" := (bind c (fun x => k))
  (at level 61, c at next level, right associativity) : md_scope.
Notation "c ;; k" := (bind c (fun _ => k))
  (at level 61, right associativity) : md_scope.
Local Open Scope md_scope.

Definition get_data : M string := fun self => (_data self, self).
Definition get_list_depth : M Z := fun self => (_list_depth self, self).
Definition get_endl : M string := fun self => (endl self, self).

Definition set_data (s : string) : M unit :=
  fun self => (tt, mkMarkdownFile s (_list_depth self) (endl self)).
Definition set_list_depth (d : Z) : M unit :=
  fun self => (tt, mkMarkdownFile (_data self) d (endl self)).

Definition exec {A} (c : M A) (self : MarkdownFile) : MarkdownFile := snd (c self).
Definition eval {A} (c : M A) (self : MarkdownFile) : A := fst (c self).

Module MarkdownFile.

Definition __init__ : MarkdownFile :=
  {| _data := EmptyString; _list_depth := 0; endl := "  " ++ Py.nl |}.

Definition data : M string := get_data.

Definition text (buf : string) : M unit :=
  s <- get_data ;;
  set_data (join0 [s; buf]).

Definition list_push (buf : string) : M unit :=
  (if Py.truthy buf then
     d <- get_list_depth ;;
     text (join0 [if negb (d =? 0) then Py.mul "    " d else EmptyString;
                  "- "; buf])
   else ret tt) ;;
  d <- get_list_depth ;;
  set_list_depth (d + 1).

Definition list_pushn (buf : string) : M unit :=
  e <- get_endl ;;
  list_push (join0 [buf; e]).

Definition list_pop : M unit :=
  d <- get_list_depth ;;
  set_list_depth (Z.max (d - 1) 0).

Definition list_popn : M unit :=
  list_pop ;;
  s <- get_data ;;
  set_data (join0 [s; Py.nl]).

Definition list_depth : M string :=
  s <- get_data ;;
  d <- get_list_depth ;;
  if negb (Py.last_slice (Py.strip s) =? Py.nl)%string || (d =? 0)
  then ret EmptyString
  else ret (join0 [Py.mul "    " d]).

Definition textn (buf : string) : M unit :=
  s <- get_data ;;
  ind <- list_depth ;;
  e <- get_endl ;;
  set_data (join0 [s; ind; buf; e]).

Definition not_title (buf : string) : M unit :=
  s <- get_data ;;
  ind <- list_depth ;;
  set_data (join0 [s; Py.nl; ind; "#"; buf; Py.nl]).

Definition title (strongness : Z) (buf : string) : M unit :=
  s <- get_data ;;
  ind <- list_depth ;;
  set_data (join0 [s; Py.nl; ind; Py.mul "#" strongness; " "; buf; Py.nl]).

Definition new_line : M unit :=
  s <- get_data ;;
  e <- get_endl ;;
  set_data (join0 [s; e]).

Definition code_block (buf language : string) : M string :=
  ind1 <- list_depth ;;
  ind2 <- list_depth ;;
  ret (join0 ["```"; language; Py.nl; ind1; buf; Py.nl; ind2; "```" ++ Py.nl]).

End MarkdownFile.

(** A call of one public method, its result dropped, and a sequence of
    such calls on one object. *)
Inductive op : Type :=
| Data
| ListPush (buf : string)
| ListPushn (buf : string)
| ListPop
| ListPopn
| ListDepth
| Text (buf : string)
| Textn (buf : string)
| NotTitle (buf : string)
| Title (strongness : Z) (buf : string)
| NewLine
| CodeBlock (buf language : string).

Definition call (o : op) : M unit :=
  match o with
  | Data => MarkdownFile.data ;; ret tt
  | ListPush buf => MarkdownFile.list_push buf
  | ListPushn buf => MarkdownFile.list_pushn buf
  | ListPop => MarkdownFile.list_pop
  | ListPopn => MarkdownFile.list_popn
  | ListDepth => MarkdownFile.list_depth ;; ret tt
  | Text buf => MarkdownFile.text buf
  | Textn buf => MarkdownFile.textn buf
  | NotTitle buf => MarkdownFile.not_title buf
  | Title strongness buf => MarkdownFile.title strongness buf
  | NewLine => MarkdownFile.new_line
  | CodeBlock buf language => MarkdownFile.code_block buf language ;; ret tt
  end.

Fixpoint calls (os : list op) : M unit :=
  match os with
  | [] => ret tt
  | o :: os' => call o ;; calls os'
  end.

(** [for x in l: body(x)] on one accumulator. *)
Fixpoint for_each {A} (l : list A) (body : A -> M unit) : M unit :=
  match l with
  | [] => ret tt
  | x :: l' => body x ;; for_each l' body
  end.

(** ** The blueprint provider

    The client library is not part of the script. A blueprint exposes its
    [id] and, when iterated, its attributes; an attribute exposes [id],
    [type] and [is_modifiable]. The field [type] holds [str(attr.type)], the
    only use the script makes of it. *)

Module ActorAttribute.
Record t : Type := mk
  { id : string;
    type : string;
    is_modifiable : bool }.
End ActorAttribute.

Module ActorBlueprint.
Record t : Type := mk
  { id : string;
    attributes : list ActorAttribute.t }.
End ActorBlueprint.

(** Exceptions the script can meet, and the outcome of a call that may
    raise. *)
Inductive exn : Type := RuntimeError | IndexError | OSError | ImportError.

Inductive result (A : Type) : Type :=
| Ok (a : A)
| Raise (e : exn).
Arguments Ok {A} a.
Arguments Raise {A} e.

(** ** Grouping by blueprint type *)

(** [bp_id.split('.')[0]]: the text before the first dot, the whole
    identifier when it has none. *)
Fixpoint split_dot_0 (s : string) : string :=
  match s with
  | EmptyString => EmptyString
  | String c s' => if (c =? ".")%char then EmptyString else String c (split_dot_0 s')
  end.

(** The two-element list [[bp_id, bp]], or the empty list [value] starts
    as. *)
Definition value_t : Type := option (string * ActorBlueprint.t).

(** The inner loop over [blueprints]: the last blueprint with that id
    wins. *)
Definition find_value (blueprints : list ActorBlueprint.t) (bp_id : string) : value_t :=
  fold_left
    (fun value bp =>
       if (ActorBlueprint.id bp =? bp_id)%string then Some (bp_id, bp) else value)
    blueprints None.

(** [bp_dict]: keys in insertion order, each with the list appended to. *)
Definition bp_dict_t : Type := list (string * list value_t).

Fixpoint dict_add (bp_dict : bp_dict_t) (bp_type : string) (value : value_t) : bp_dict_t :=
  match bp_dict with
  | [] => [(bp_type, [value])]
  | (k, vs) :: rest =>
      if (k =? bp_type)%string then (k, (vs ++ [value])%list) :: rest
      else (k, vs) :: dict_add rest bp_type value
  end.

Definition group_step (blueprints : list ActorBlueprint.t)
    (bp_dict : bp_dict_t) (bp_id : string) : bp_dict_t :=
  let bp_type := split_dot_0 bp_id in
  let value := find_value blueprints bp_id in
  dict_add bp_dict bp_type value.

Definition group (blueprints : list ActorBlueprint.t) (blueprint_ids : list string)
    : bp_dict_t :=
  fold_left (group_step blueprints)
    (Py.sorted Py.lt (fun bp_id => bp_id) blueprint_ids) [].

(** [a < b] on the lists held in a group. Lists compare item by item and
    the shorter one is smaller when it is a prefix. Two entries with the same
    identifier come from the same scan of [blueprints] and hold the very same
    blueprint object, which list comparison takes as equal without asking the
    object; so the identifier decides. *)
Definition value_lt (a b : value_t) : bool :=
  match a, b with
  | None, Some _ => true
  | Some (ia, _), Some (ib, _) => Py.lt ia ib
  | _, None => false
  end.

(** ** Rendering *)

(** Code of [generate_pb_docs] that drives the accumulator and may raise. *)
Definition G (A : Type) : Type := MarkdownFile -> result (A * MarkdownFile).

Definition gret {A} (a : A) : G A := fun self => Ok (a, self).

Definition gbind {A B} (c : G A) (k : A -> G B) : G B :=
  fun self =>
    match c self with
    | Ok (a, self') => k a self'
    | Raise e => Raise e
    end.

Definition raise {A} (e : exn) : G A := fun _ => Raise e.

Definition lift {A} (c : M A) : G A := fun self => Ok (c self).

Declare Scope gen_scope.
Delimit Scope gen_scope with gen.
Notation "x <- c ;; k" := (gbind c (fun x => k))
  (at level 61, c at next level, right associativity) : gen_scope.
Notation "c ;; k" := (gbind c (fun _ => k))
  (at level 61, right associativity) : gen_scope.

Fixpoint gfor_each {A} (l : list A) (body : A -> G unit) : G unit :=
  match l with
  | [] => gret tt
  | x :: l' => gbind (body x) (fun _ => gfor_each l' body)
  end.

(** [bp[0]] and [bp[1]]; an empty list has neither. *)
Definition item0 (bp : value_t) : G string :=
  match bp with
  | Some (bp_id, _) => gret bp_id
  | None => raise IndexError
  end.

Definition item1 (bp : value_t) : G ActorBlueprint.t :=
  match bp with
  | Some (_, blueprint) => gret blueprint
  | None => raise IndexError
  end.

Definition render_attr (attr : ActorAttribute.t) : M unit :=
  MarkdownFile.list_push (code (ActorAttribute.id attr)) ;;
  MarkdownFile.text (" " ++ parentheses (italic (ActorAttribute.type attr))) ;;
  (if ActorAttribute.is_modifiable attr
   then MarkdownFile.text (" " ++ sub (italic "- Modifiable"))
   else ret tt) ;;
  MarkdownFile.list_popn.

Definition render_bp (bp : value_t) : G unit :=
  (bp0 <- item0 bp ;;
   lift (MarkdownFile.list_pushn (bold (color COLOR_LIST bp0))) ;;
   lift (MarkdownFile.list_push (bold "Attributes:" ++ Py.nl)) ;;
   bp1 <- item1 bp ;;
   lift (for_each
           (Py.sorted Py.lt ActorAttribute.id (ActorBlueprint.attributes bp1))
           render_attr) ;;
   lift MarkdownFile.list_pop ;;
   lift MarkdownFile.list_pop)%gen.

Definition render_type (item : string * list value_t) : G unit :=
  (let (key, value) := item in
   lift (MarkdownFile.title 3 key) ;;
   gfor_each (Py.sorted value_lt (fun bp => bp) value) render_bp ;;
   lift MarkdownFile.list_pop)%gen.

Definition example_code : string :=
  "blueprints = [bp for bp in world.get_blueprint_library().filter('*')]" ++ Py.nl ++
  "for blueprint in blueprints:" ++ Py.nl ++
  "   print(blueprint.id)" ++ Py.nl ++
  "   for attr in blueprint:" ++ Py.nl ++
  "       print('  - {}'.format(attr))".

Definition render_intro : M unit :=
  MarkdownFile.not_title "Blueprint Library" ;;
  MarkdownFile.textn
    ("The Blueprint Library ([`carla.BlueprintLibrary`](../python_api/#carlablueprintlibrary-class)) " ++
     "is a summary of all [`carla.ActorBlueprint`](../python_api/#carla.ActorBlueprint) " ++
     "and its attributes ([`carla.ActorAttribute`](../python_api/#carla.ActorAttribute)) " ++
     "available to the user in CARLA.") ;;
  MarkdownFile.textn
    (Py.nl ++ "Here is an example code for printing all actor blueprints and their attributes:") ;;
  block <- MarkdownFile.code_block example_code "py" ;;
  MarkdownFile.textn block ;;
  MarkdownFile.textn "Check out the [introduction to blueprints](core_actors.md).".

(** [generate_pb_docs]: what it prints, and what it returns or raises.
    [library] is the outcome of connecting and asking the world for every
    blueprint; both [filter('*')] calls see the same library. *)
Definition generate_pb_docs (library : result (list ActorBlueprint.t))
    : list string * result string :=
  (["Generating API blueprint documentation..."],
   match library with
   | Raise e => Raise e
   | Ok lib =>
       let blueprints := lib in
       let blueprint_ids := map ActorBlueprint.id lib in
       let bp_dict := group blueprints blueprint_ids in
       match (lift render_intro ;;
              gfor_each bp_dict render_type ;;
              lift MarkdownFile.data)%gen MarkdownFile.__init__ with
       | Ok (docs, _) => Ok docs
       | Raise e => Raise e
       end
   end).

(** ** The entry point *)

(** How a run of the script ends, and the status the interpreter then
    reports: 0 after a normal return, the argument of [sys.exit], 1 after an
    exception nobody caught. *)
Inductive termination : Type :=
| Returned
| SysExit (code : Z)
| Uncaught (e : exn).

Definition exit_status (t : termination) : Z :=
  match t with
  | Returned => 0
  | SysExit c => c
  | Uncaught _ => 1
  end.

(** What a run shows: the lines it printed, the document when the run
    wrote it to [bp_library.md] in full, and how it ended. [None] says only
    that the run did not write the document in full: the file may be absent,
    as it was before, or cut short. *)
Record run : Type := mkRun
  { stdout : list string;
    bp_library_md : option string;
    ending : termination }.

Definition connection_diagnostic : list string :=
  [Py.nl ++ "  [ERROR] Can't establish connection with the simulator";
   " .---------------------------------------------------.";
   "  |       Make sure the simulator is connected!       |";
   "  '---------------------------------------------------'" ++ Py.nl].

(** [main]. [write] is the outcome of opening the output file and writing
    the document to it. *)
Definition main (library : result (list ActorBlueprint.t)) (write : result unit) : run :=
  let (printed, outcome) := generate_pb_docs library in
  match outcome with
  | Raise RuntimeError =>
      mkRun (printed ++ connection_diagnostic)%list None (SysExit 0)
  | Raise e => mkRun printed None (Uncaught e)
  | Ok docs =>
      match write with
      | Ok _ => mkRun (printed ++ ["Done!"])%list (Some docs) Returned
      | Raise e => mkRun printed None (Uncaught e)
      end
  end.

(** ** Auxiliary definitions for the statements *)

(** The object with [s] appended to its buffer and the depth set to [d]. *)
Definition appended (self : MarkdownFile) (s : string) (d : Z) : MarkdownFile :=
  mkMarkdownFile (_data self ++ s) d (endl self).

(** Four spaces, [d] times: the indentation block of depth [d]. *)
Definition indentation (d : Z) : string := Py.mul "    " d.

(** The identifiers a group list holds, and those of the whole dictionary,
    group after group. *)
Definition value_ids (value : value_t) : list string :=
  match value with
  | Some (bp_id, _) => [bp_id]
  | None => []
  end.

Definition flatten (bp_dict : bp_dict_t) : list string :=
  flat_map (fun item => flat_map value_ids (snd item)) bp_dict.

(** The elements of [l] in the order each is first met, [seen] holding
    those met before. *)
Fixpoint first_seen (seen l : list string) : list string :=
  match l with
  | [] => []
  | x :: l' =>
      if existsb (String.eqb x) seen then first_seen seen l'
      else x :: first_seen (seen ++ [x]) l'
  end.

Definition first_occurrences (l : list string) : list string := first_seen [] l.

(** [a <= b] on strings, and lists in non-decreasing order. *)
Definition str_le (a b : string) : Prop := String.leb a b = true.

Definition non_decreasing (l : list string) : Prop := Sorted str_le l.

(** *** The layout of the document

    The text of one attribute line, of one blueprint entry and of one
    section, written out; [sections] lists, for a library, the sections in
    the order they are rendered, each with its entries in the order they are
    rendered. *)
Definition concat_all (l : list string) : string := fold_right append EmptyString l.

Definition rendered_attrs (bp : ActorBlueprint.t) : list ActorAttribute.t :=
  Py.sorted Py.lt ActorAttribute.id (ActorBlueprint.attributes bp).

Definition attr_text (attr : ActorAttribute.t) : string :=
  indentation 2 ++ "- " ++ code (ActorAttribute.id attr) ++
  " " ++ parentheses (italic (ActorAttribute.type attr)) ++
  (if ActorAttribute.is_modifiable attr
   then " " ++ sub (italic "- Modifiable") else EmptyString) ++
  Py.nl.

Definition bp_text (entry : string * ActorBlueprint.t) : string :=
  "- " ++ bold (color COLOR_LIST (fst entry)) ++ "  " ++ Py.nl ++
  indentation 1 ++ "- " ++ bold "Attributes:" ++ Py.nl ++
  concat_all (map attr_text (rendered_attrs (snd entry))).

Definition section_text (sec : string * list (string * ActorBlueprint.t)) : string :=
  Py.nl ++ "### " ++ fst sec ++ Py.nl ++ concat_all (map bp_text (snd sec)).

Definition intro_text : string :=
  _data (exec render_intro MarkdownFile.__init__).

Definition document_text (secs : list (string * list (string * ActorBlueprint.t)))
    : string :=
  intro_text ++ concat_all (map section_text secs).

Definition entries (values : list value_t) : list (string * ActorBlueprint.t) :=
  flat_map (fun value => match value with Some e => [e] | None => [] end) values.

Definition sections (lib : list ActorBlueprint.t)
    : list (string * list (string * ActorBlueprint.t)) :=
  map (fun item => (fst item, entries (Py.sorted value_lt (fun bp => bp) (snd item))))
      (group lib (map ActorBlueprint.id lib)).

Definition is_some (value : value_t) : Prop := value <> None.

(** A group under key [fst item] holds only entries [[bp_id, bp]] whose
    identifier has that key in front of its first dot. *)
Definition well_grouped (item : string * list value_t) : Prop :=
  Forall
    (fun value =>
       exists bp_id bp, value = Some (bp_id, bp) /\ split_dot_0 bp_id = fst item)
    (snd item).

(** ** The rest of the script *)

(** [valid_dic_val(dic, value)]: [value in dic and dic[value]]. A [dict] is
    a list of items with distinct keys; [dic[value]] raises [KeyError], here
    [None], on a key that is missing. An object is [False] or any other
    object, and a dictionary may hold either. The result is the object
    [False] when the key is missing, the stored object otherwise, which may be
    [False] as well. *)
Inductive py_obj (V : Type) : Type :=
| PyFalse
| PyVal (v : V).
Arguments PyFalse {V}.
Arguments PyVal {V} v.

Fixpoint contains {V} (dic : list (string * V)) (key : string) : bool :=
  match dic with
  | [] => false
  | (k, _) :: rest => (k =? key)%string || contains rest key
  end.

Fixpoint getitem {V} (dic : list (string * V)) (key : string) : option V :=
  match dic with
  | [] => None
  | (k, v) :: rest => if (k =? key)%string then Some v else getitem rest key
  end.

Definition valid_dic_val {V} (dic : list (string * py_obj V)) (value : string)
    : option (py_obj V) :=
  if contains dic value then getitem dic value else Some PyFalse.

(** Truth value of an object, [truth] giving that of the objects other than
    [False]. *)
Definition obj_truthy {V} (truth : V -> bool) (o : py_obj V) : bool :=
  match o with
  | PyFalse => false
  | PyVal v => truth v
  end.

(** ['%d' % n]. *)
Definition fmt_d (n : Z) : string := NilZero.string_of_int (Z.to_int n).

(** The name pattern of the client library, from the interpreter version
    and [os.name]. *)
Definition carla_lib_name (major minor : Z) (os_name : string) : string :=
  "carla-*" ++ fmt_d major ++ "." ++ fmt_d minor ++ "-" ++
  (if (os_name =? "nt")%string then "win-amd64" else "linux-x86_64") ++ ".egg".

Definition egg_diagnostic (lib_name : string) : list string :=
  [Py.nl ++ "  [ERROR] Could not find " ++ Py.dq ++ lib_name ++ Py.dq;
   "          Blueprint library docs will not be generated";
   " .---------------------------------------------------.";
   "  |     Make sure the python client is compiled!      |";
   "  '---------------------------------------------------'" ++ Py.nl].

(** The [try] block at the top of the module: [glob] is [glob.glob] on the
    file system of the run. Either the first match is appended to
    [sys.path], or the diagnostic is printed and the script exits. *)
Inductive startup : Type :=
| Located (sys_path : list string)
| Exited (printed : list string) (code : Z).

Definition locate_carla (major minor : Z) (os_name : string)
    (glob : string -> list string) (sys_path : list string) : startup :=
  let carla_lib_name := carla_lib_name major minor os_name in
  match glob ("../carla/dist/" ++ carla_lib_name) with
  | egg :: _ => Located (sys_path ++ [egg])
  | [] => Exited (egg_diagnostic carla_lib_name) 0
  end.

(** The script run as [__main__]. [import_carla] is the outcome of
    [import carla], which stands outside the [try] block: an exception it
    raises ends the run uncaught, before anything is printed. *)
Definition script (major minor : Z) (os_name : string)
    (glob : string -> list string) (sys_path : list string)
    (import_carla : result unit)
    (library : result (list ActorBlueprint.t)) (write : result unit) : run :=
  match locate_carla major minor os_name glob sys_path with
  | Exited printed c => mkRun printed None (SysExit c)
  | Located _ =>
      match import_carla with
      | Raise e => mkRun [] None (Uncaught e)
      | Ok _ => main library write
      end
  end.

(** How many calls of a sequence open a list level, and how many close
    one. *)
Definition opens (o : op) : Z :=
  match o with
  | ListPush _ | ListPushn _ => 1
  | _ => 0
  end.

Definition closes (o : op) : Z :=
  match o with
  | ListPop | ListPopn => 1
  | _ => 0
  end.

Definition total (f : op -> Z) (os : list op) : Z :=
  fold_right (fun o n => f o + n) 0 os.

(** A string without the dot. *)
Fixpoint dotless (s : string) : bool :=
  match s with
  | EmptyString => true
  | String c s' => negb (c =? ".")%char && dotless s'
  end.

(** [bp_dict[bp_type]] read back, the empty list standing for a key that
    is not there. *)
Fixpoint dict_get (bp_dict : bp_dict_t) (bp_type : string) : list value_t :=
  match bp_dict with
  | [] => []
  | (k, vs) :: rest => if (k =? bp_type)%string then vs else dict_get rest bp_type
  end.

(** The identifiers of [ids] whose text before the first dot is [bp_type]. *)
Definition of_type (bp_type : string) (ids : list string) : list string :=
  filter (fun bp_id => (split_dot_0 bp_id =? bp_type)%string) ids.

(** * Properties *)

(** ** Strings *)

Lemma append_assoc (s1 s2 s3 : string) : (s1 ++ s2) ++ s3 = s1 ++ s2 ++ s3.
Proof.
  induction s1 as [|c s1 IH]; simpl; [reflexivity | now rewrite IH].
Qed.

Lemma append_empty_r (s : string) : s ++ EmptyString = s.
Proof.
  induction s as [|c s IH]; simpl; [reflexivity | now rewrite IH].
Qed.

Lemma prefix_append (s r : string) : prefix s (s ++ r) = true.
Proof.
  induction s as [|c s IH]; simpl.
  - now destruct r.
  - destruct (ascii_dec c c) as [_|n]; [exact IH | now elim n].
Qed.

Lemma prefix_refl (s : string) : prefix s s = true.
Proof.
  rewrite <- (append_empty_r s) at 2. apply prefix_append.
Qed.

Lemma truthy_iff (s : string) : Py.truthy s = true <-> s <> EmptyString.
Proof.
  destruct s; simpl; split; congruence.
Qed.

(** What [rstrip] leaves never ends in whitespace. *)
Lemma rstrip_last_not_space (s : string) (c : ascii) :
  Py.last_slice (Py.rstrip s) = String c EmptyString -> Py.isspace c = false.
Proof.
  induction s as [|a s IH]; simpl; [discriminate|].
  destruct (Py.rstrip s) as [|b r] eqn:E.
  - destruct (Py.isspace a) eqn:Ea; simpl; [discriminate|].
    intros H; injection H as <-; exact Ea.
  - intros H. apply IH. exact H.
Qed.

(** So the last character of a stripped buffer is never the line feed. *)
Lemma strip_last_not_nl (s : string) :
  (Py.last_slice (Py.strip s) =? Py.nl)%string = false.
Proof.
  apply String.eqb_neq. intros H.
  apply rstrip_last_not_space in H. discriminate H.
Qed.

(** ** The accumulator, method by method *)

Lemma list_depth_run (self : MarkdownFile) :
  MarkdownFile.list_depth self = (EmptyString, self).
Proof.
  unfold MarkdownFile.list_depth, bind, get_data, get_list_depth.
  rewrite strip_last_not_nl. reflexivity.
Qed.

Lemma text_run (buf : string) (self : MarkdownFile) :
  MarkdownFile.text buf self = (tt, appended self buf (_list_depth self)).
Proof. reflexivity. Qed.

Lemma list_push_run (buf : string) (self : MarkdownFile) :
  MarkdownFile.list_push buf self =
  (tt, if Py.truthy buf
       then appended self (indentation (_list_depth self) ++ "- " ++ buf)
              (_list_depth self + 1)
       else appended self EmptyString (_list_depth self + 1)).
Proof.
  unfold MarkdownFile.list_push, bind, appended, indentation.
  destruct (Py.truthy buf); cbn.
  - destruct (_list_depth self =? 0) eqn:E; cbn; [|reflexivity].
    apply Z.eqb_eq in E. rewrite E. reflexivity.
  - now rewrite append_empty_r.
Qed.

Lemma list_pushn_run (buf : string) (self : MarkdownFile) :
  MarkdownFile.list_pushn buf self = MarkdownFile.list_push (buf ++ endl self) self.
Proof. reflexivity. Qed.

Lemma list_pop_run (self : MarkdownFile) :
  MarkdownFile.list_pop self =
  (tt, mkMarkdownFile (_data self) (Z.max (_list_depth self - 1) 0) (endl self)).
Proof. reflexivity. Qed.

Lemma list_popn_run (self : MarkdownFile) :
  MarkdownFile.list_popn self =
  (tt, appended self Py.nl (Z.max (_list_depth self - 1) 0)).
Proof. reflexivity. Qed.

Lemma textn_run (buf : string) (self : MarkdownFile) :
  MarkdownFile.textn buf self =
  (tt, appended self (buf ++ endl self) (_list_depth self)).
Proof.
  unfold MarkdownFile.textn, bind, get_data.
  rewrite list_depth_run. reflexivity.
Qed.

Lemma not_title_run (buf : string) (self : MarkdownFile) :
  MarkdownFile.not_title buf self =
  (tt, appended self (Py.nl ++ "#" ++ buf ++ Py.nl) (_list_depth self)).
Proof.
  unfold MarkdownFile.not_title, bind, get_data.
  rewrite list_depth_run. reflexivity.
Qed.

Lemma title_run (strongness : Z) (buf : string) (self : MarkdownFile) :
  MarkdownFile.title strongness buf self =
  (tt, appended self (Py.nl ++ Py.mul "#" strongness ++ " " ++ buf ++ Py.nl)
         (_list_depth self)).
Proof.
  unfold MarkdownFile.title, bind, get_data.
  rewrite list_depth_run. reflexivity.
Qed.

Lemma new_line_run (self : MarkdownFile) :
  MarkdownFile.new_line self = (tt, appended self (endl self) (_list_depth self)).
Proof. reflexivity. Qed.

Lemma code_block_run (buf language : string) (self : MarkdownFile) :
  MarkdownFile.code_block buf language self =
  ("```" ++ language ++ Py.nl ++ buf ++ Py.nl ++ "```" ++ Py.nl, self).
Proof.
  unfold MarkdownFile.code_block, bind.
  rewrite list_depth_run. cbv beta iota.
  rewrite list_depth_run. reflexivity.
Qed.

Lemma data_run (self : MarkdownFile) :
  MarkdownFile.data self = (_data self, self).
Proof. reflexivity. Qed.

Lemma exec_bind {A B} (c : M A) (k : A -> M B) (self : MarkdownFile) :
  exec (bind c k) self = exec (k (eval c self)) (exec c self).
Proof.
  unfold exec, eval, bind. now destruct (c self).
Qed.

(** What one call does to the two fields, whatever the method. *)
Lemma call_run (o : op) (self : MarkdownFile) :
  exists s d,
    exec (call o) self = appended self s d
    /\ (0 <= _list_depth self -> 0 <= d).
Proof.
  destruct o; unfold exec; cbn [call]; unfold bind.
  - rewrite data_run. exists EmptyString, (_list_depth self).
    unfold appended. rewrite append_empty_r. now destruct self.
  - rewrite list_push_run. destruct (Py.truthy buf); eexists; eexists;
      (split; [reflexivity | lia]).
  - rewrite list_pushn_run, list_push_run.
    destruct (Py.truthy (buf ++ endl self)); eexists; eexists;
      (split; [reflexivity | lia]).
  - rewrite list_pop_run. exists EmptyString, (Z.max (_list_depth self - 1) 0).
    unfold appended. rewrite append_empty_r. split; [reflexivity | lia].
  - rewrite list_popn_run. eexists; eexists; split; [reflexivity | lia].
  - rewrite list_depth_run. exists EmptyString, (_list_depth self).
    unfold appended. rewrite append_empty_r. now destruct self.
  - rewrite text_run. eexists; eexists; split; [reflexivity | lia].
  - rewrite textn_run. eexists; eexists; split; [reflexivity | lia].
  - rewrite not_title_run. eexists; eexists; split; [reflexivity | lia].
  - rewrite title_run. eexists; eexists; split; [reflexivity | lia].
  - rewrite new_line_run. eexists; eexists; split; [reflexivity | lia].
  - rewrite code_block_run. exists EmptyString, (_list_depth self).
    unfold appended. rewrite append_empty_r. now destruct self.
Qed.

Lemma calls_depth_nonneg (os : list op) (self : MarkdownFile) :
  0 <= _list_depth self -> 0 <= _list_depth (exec (calls os) self).
Proof.
  revert self. induction os as [|o os IH]; intros self H; [exact H|].
  cbn [calls]. rewrite exec_bind. apply IH.
  destruct (call_run o self) as (s & d & -> & Hd). cbn. auto.
Qed.

(** ** The claims about the accumulator *)

(** C2. The code departs from the claim: [list_depth] strips the buffer
    before it looks at its last character, so it never sees a line break and
    [textn] never indents. After [list_push("x\n")] on a fresh object the
    buffer ends with a line break and the depth is 1, yet [textn("y")]
    appends the text at the left margin, not behind four spaces. *)
Theorem textn_after_line_break_not_indented :
  let self := exec (MarkdownFile.list_push ("x" ++ Py.nl)) MarkdownFile.__init__ in
  _data self = "- x" ++ Py.nl
  /\ _list_depth self = 1
  /\ _data (exec (MarkdownFile.textn "y") self) = "- x" ++ Py.nl ++ "y  " ++ Py.nl
  /\ _data (exec (MarkdownFile.textn "y") self)
     <> "- x" ++ Py.nl ++ indentation 1 ++ "y  " ++ Py.nl.
Proof.
  cbv zeta. repeat split; try reflexivity.
  vm_compute. discriminate.
Qed.

(** C6. From a fresh accumulator the depth is never negative, whatever
    methods are called in whatever order; [list_pop] at depth 0 leaves the
    depth at 0, and at a depth [d > 0] leaves [d - 1]. *)
Theorem list_depth_never_negative (os : list op) :
  0 <= _list_depth (exec (calls os) MarkdownFile.__init__)
  /\ (forall self, _list_depth self = 0 ->
        _list_depth (exec MarkdownFile.list_pop self) = 0)
  /\ (forall self, 0 < _list_depth self ->
        _list_depth (exec MarkdownFile.list_pop self) = _list_depth self - 1).
Proof.
  split; [|split].
  - apply calls_depth_nonneg. cbn. lia.
  - intros self H. unfold exec. rewrite list_pop_run. cbn. lia.
  - intros self H. unfold exec. rewrite list_pop_run. cbn. lia.
Qed.

Lemma list_depth_never_negative_witness :
  0 <= _list_depth
         (exec (calls [ListPop; ListPush "a"; ListPopn; ListPop; Textn "b"])
            MarkdownFile.__init__)
  /\ (_list_depth MarkdownFile.__init__ = 0
      /\ _list_depth (exec MarkdownFile.list_pop MarkdownFile.__init__) = 0)
  /\ (0 < _list_depth (mkMarkdownFile "- a" 2 ("  " ++ Py.nl))
      /\ _list_depth
           (exec MarkdownFile.list_pop (mkMarkdownFile "- a" 2 ("  " ++ Py.nl))) = 1).
Proof.
  destruct (list_depth_never_negative
              [ListPop; ListPush "a"; ListPopn; ListPop; Textn "b"])
    as (H1 & H2 & H3).
  split; [exact H1 | split; split].
  - reflexivity.
  - apply H2. reflexivity.
  - reflexivity.
  - apply (H3 (mkMarkdownFile "- a" 2 ("  " ++ Py.nl))). reflexivity.
Defined.

(** C7. [list_push(text)] with a non-empty text appends four spaces
    repeated depth times (nothing at depth 0), then ["- "], then the text,
    and adds 1 to the depth; with the empty text it leaves the buffer as it is
    and still adds 1 to the depth. *)
Theorem list_push_spec (self : MarkdownFile) (buf : string) :
  (buf <> EmptyString ->
     exec (MarkdownFile.list_push buf) self =
     mkMarkdownFile (_data self ++ indentation (_list_depth self) ++ "- " ++ buf)
       (_list_depth self + 1) (endl self))
  /\ exec (MarkdownFile.list_push EmptyString) self =
     mkMarkdownFile (_data self) (_list_depth self + 1) (endl self)
  /\ indentation 0 = EmptyString.
Proof.
  split; [|split].
  - intros H. apply truthy_iff in H. unfold exec.
    rewrite list_push_run, H. reflexivity.
  - reflexivity.
  - reflexivity.
Qed.

Lemma list_push_spec_witness :
  "item" <> EmptyString
  /\ exec (MarkdownFile.list_push "item") (mkMarkdownFile "- a" 2 ("  " ++ Py.nl)) =
     mkMarkdownFile "- a        - item" 3 ("  " ++ Py.nl).
Proof.
  destruct (list_push_spec (mkMarkdownFile "- a" 2 ("  " ++ Py.nl)) "item")
    as (H & _ & _).
  split; [discriminate|].
  apply H. discriminate.
Defined.

(** C8, as the claim has it, fails on the empty text: [list_push('')]
    emits nothing, [list_pushn('')] hands the line break to [list_push],
    which finds its argument non-empty and emits a bullet. *)
Lemma list_pushn_empty_text_emits_bullet :
  _data (exec (MarkdownFile.list_push EmptyString) MarkdownFile.__init__)
  = _data MarkdownFile.__init__
  /\ _data (exec (MarkdownFile.list_pushn EmptyString) MarkdownFile.__init__)
     = "-   " ++ Py.nl
  /\ _data (exec (MarkdownFile.list_pushn EmptyString) MarkdownFile.__init__)
     <> _data MarkdownFile.__init__.
Proof.
  repeat split. vm_compute. discriminate.
Qed.

(** C8, amended. On an accumulator whose [endl] is the two spaces and line
    break it is created with, [list_pushn(text)] is [list_push] of the text
    followed by [endl]: the depth it leaves is the one [list_push(text)]
    leaves, it always emits a bullet that ends with the line break, and for a
    non-empty text its buffer is the one [list_push(text)] leaves with [endl]
    appended. *)
Theorem list_pushn_spec (self : MarkdownFile) (buf : string)
    (Hendl : endl self = "  " ++ Py.nl) :
  MarkdownFile.list_pushn buf self
  = MarkdownFile.list_push (buf ++ "  " ++ Py.nl) self
  /\ _list_depth (exec (MarkdownFile.list_pushn buf) self)
     = _list_depth (exec (MarkdownFile.list_push buf) self)
  /\ _data (exec (MarkdownFile.list_pushn buf) self)
     = _data self ++ indentation (_list_depth self) ++ "- " ++ buf ++ "  " ++ Py.nl
  /\ (buf <> EmptyString ->
      _data (exec (MarkdownFile.list_pushn buf) self)
      = _data (exec (MarkdownFile.list_push buf) self) ++ "  " ++ Py.nl).
Proof.
  assert (Ht : Py.truthy (buf ++ "  " ++ Py.nl) = true) by now destruct buf.
  unfold exec. rewrite list_pushn_run, Hendl, !list_push_run, Ht.
  split; [reflexivity | split; [|split]].
  - now destruct (Py.truthy buf).
  - reflexivity.
  - intros H. apply truthy_iff in H. rewrite H. cbn.
    now rewrite !append_assoc.
Qed.

Lemma list_pushn_spec_witness :
  endl MarkdownFile.__init__ = "  " ++ Py.nl
  /\ "item" <> EmptyString
  /\ _data (exec (MarkdownFile.list_pushn "item") MarkdownFile.__init__)
     = _data (exec (MarkdownFile.list_push "item") MarkdownFile.__init__)
       ++ "  " ++ Py.nl.
Proof.
  destruct (list_pushn_spec MarkdownFile.__init__ "item" eq_refl)
    as (_ & _ & _ & H).
  split; [reflexivity | split; [discriminate|]].
  apply H. discriminate.
Defined.

(** C9. [text], [textn], [not_title], [title], [new_line], [code_block]
    and [data] leave the depth as it is; [list_push] and [list_pushn] add 1
    to it; [list_pop] and [list_popn] take 1 from it, stopping at 0. *)
Theorem depth_frame (self : MarkdownFile) :
  (forall buf, _list_depth (exec (MarkdownFile.text buf) self) = _list_depth self)
  /\ (forall buf, _list_depth (exec (MarkdownFile.textn buf) self) = _list_depth self)
  /\ (forall buf, _list_depth (exec (MarkdownFile.not_title buf) self) = _list_depth self)
  /\ (forall n buf, _list_depth (exec (MarkdownFile.title n buf) self) = _list_depth self)
  /\ _list_depth (exec MarkdownFile.new_line self) = _list_depth self
  /\ (forall buf language,
        _list_depth (exec (MarkdownFile.code_block buf language) self) = _list_depth self)
  /\ _list_depth (exec MarkdownFile.data self) = _list_depth self
  /\ (forall buf, _list_depth (exec (MarkdownFile.list_push buf) self) = _list_depth self + 1)
  /\ (forall buf, _list_depth (exec (MarkdownFile.list_pushn buf) self) = _list_depth self + 1)
  /\ _list_depth (exec MarkdownFile.list_pop self) = Z.max (_list_depth self - 1) 0
  /\ _list_depth (exec MarkdownFile.list_popn self) = Z.max (_list_depth self - 1) 0.
Proof.
  unfold exec. repeat apply conj; intros.
  - now rewrite text_run.
  - now rewrite textn_run.
  - now rewrite not_title_run.
  - now rewrite title_run.
  - now rewrite new_line_run.
  - now rewrite code_block_run.
  - now rewrite data_run.
  - rewrite list_push_run. now destruct (Py.truthy buf).
  - rewrite list_pushn_run, list_push_run. now destruct (Py.truthy _).
  - now rewrite list_pop_run.
  - now rewrite list_popn_run.
Qed.

(** C10. The buffer only grows at its end: after any public method the
    old buffer is a prefix of the new one; [code_block] and [data] leave the
    whole object as it was. *)
Theorem buffer_append_only (self : MarkdownFile) :
  (forall o, prefix (_data self) (_data (exec (call o) self)) = true)
  /\ (forall buf language, exec (MarkdownFile.code_block buf language) self = self)
  /\ exec MarkdownFile.data self = self.
Proof.
  split; [|split].
  - intros o. destruct (call_run o self) as (s & d & -> & _).
    apply prefix_append.
  - intros. unfold exec. now rewrite code_block_run.
  - reflexivity.
Qed.

(** ** Sorting *)

Section SortedFacts.
Context {A K : Type} (key_lt : K -> K -> bool) (key : A -> K).
Hypothesis key_lt_asym : forall a b, key_lt a b = true -> key_lt b a = false.

Lemma insert_perm (x : A) (l : list A) :
  Permutation (Py.insert key_lt key x l) (x :: l).
Proof.
  induction l as [|y l IH]; cbn; [reflexivity|].
  destruct (key_lt (key y) (key x)); [|reflexivity].
  rewrite IH. apply perm_swap.
Qed.

Lemma sorted_perm (l : list A) : Permutation (Py.sorted key_lt key l) l.
Proof.
  induction l as [|x l IH]; cbn; [reflexivity|].
  fold (Py.sorted key_lt key l). rewrite insert_perm. now constructor.
Qed.

Lemma insert_in_order (x : A) (l : list A) :
  Sorted (fun a b => key_lt (key b) (key a) = false) l ->
  Sorted (fun a b => key_lt (key b) (key a) = false) (Py.insert key_lt key x l).
Proof.
  induction l as [|y l IH]; intros Hs; cbn.
  - repeat constructor.
  - destruct (key_lt (key y) (key x)) eqn:E.
    + inversion Hs as [|? ? Hl Hhd]; subst. constructor; [now apply IH|].
      destruct l as [|z l]; cbn.
      * constructor. now apply key_lt_asym.
      * destruct (key_lt (key z) (key x)).
        -- inversion Hhd; subst. now constructor.
        -- constructor. now apply key_lt_asym.
    + constructor; [exact Hs | now constructor].
Qed.

Lemma sorted_in_order (l : list A) :
  Sorted (fun a b => key_lt (key b) (key a) = false) (Py.sorted key_lt key l).
Proof.
  induction l as [|x l IH]; cbn; [constructor | now apply insert_in_order].
Qed.
End SortedFacts.

Lemma lt_asym (a b : string) : Py.lt a b = true -> Py.lt b a = false.
Proof.
  unfold Py.lt, String.ltb. rewrite (String.compare_antisym b a).
  now destruct (String.compare a b).
Qed.

Lemma not_lt_le (a b : string) : Py.lt b a = false -> str_le a b.
Proof.
  unfold Py.lt, str_le, String.ltb, String.leb.
  rewrite (String.compare_antisym b a).
  now destruct (String.compare a b).
Qed.

Lemma value_lt_asym (a b : value_t) : value_lt a b = true -> value_lt b a = false.
Proof.
  destruct a as [[ia ?]|], b as [[ib ?]|]; cbn; try congruence.
  apply lt_asym.
Qed.

Lemma sorted_ids_non_decreasing {A} (key : A -> string) (l : list A) :
  non_decreasing (map key (Py.sorted Py.lt key l)).
Proof.
  pose proof (sorted_in_order Py.lt key lt_asym l) as H.
  induction H as [|x r Hr IH Hhd]; cbn; constructor; [exact IH|].
  destruct Hhd; cbn; constructor. now apply not_lt_le.
Qed.

Lemma sorted_values_non_decreasing (values : list value_t) :
  non_decreasing (map fst (entries (Py.sorted value_lt (fun bp => bp) values))).
Proof.
  pose proof (sorted_in_order value_lt (fun bp => bp) value_lt_asym values) as H.
  induction H as [|x r Hr IH Hhd]; cbn; [constructor|].
  destruct x as [[i bp]|]; cbn; [|exact IH].
  constructor; [exact IH|].
  destruct Hhd as [|y r Hy]; cbn; [constructor|].
  destruct y as [[j bp']|]; cbn in *; [|discriminate].
  constructor. now apply not_lt_le.
Qed.

(** ** Grouping *)

Lemma find_value_acc (lib : list ActorBlueprint.t) (bp_id : string) (acc : value_t) :
  (forall e, acc = Some e -> fst e = bp_id) ->
  (In bp_id (map ActorBlueprint.id lib) \/ acc <> None) ->
  exists bp,
    fold_left
      (fun value bp =>
         if (ActorBlueprint.id bp =? bp_id)%string then Some (bp_id, bp) else value)
      lib acc = Some (bp_id, bp).
Proof.
  revert acc. induction lib as [|b lib IH]; intros acc Hfst H; cbn.
  - destruct H as [[]|H]. destruct acc as [[i bp]|]; [|congruence].
    exists bp. now rewrite <- (Hfst _ eq_refl).
  - apply IH.
    + destruct (String.eqb_spec (ActorBlueprint.id b) bp_id) as [E|E]; [|exact Hfst].
      intros found [= <-]. reflexivity.
    + destruct (String.eqb_spec (ActorBlueprint.id b) bp_id) as [E|E].
      * right. discriminate.
      * destruct H as [[H|H]|H]; [congruence | now left | now right].
Qed.

Lemma find_value_some (lib : list ActorBlueprint.t) (bp_id : string) :
  In bp_id (map ActorBlueprint.id lib) ->
  exists bp, find_value lib bp_id = Some (bp_id, bp).
Proof.
  intros H. apply find_value_acc; [discriminate | now left].
Qed.

Lemma flatten_dict_add (d : bp_dict_t) (k : string) (v : value_t) :
  Permutation (flatten (dict_add d k v)) (flatten d ++ value_ids v).
Proof.
  unfold flatten.
  induction d as [|[k' vs] d IH]; cbn.
  - now rewrite !app_nil_r.
  - destruct (k' =? k)%string; cbn.
    + rewrite flat_map_app. cbn. rewrite app_nil_r, <- !app_assoc.
      apply Permutation_app_head, Permutation_app_comm.
    + rewrite IH. now rewrite app_assoc.
Qed.

Lemma flatten_fold (lib : list ActorBlueprint.t) (l : list string) (d : bp_dict_t) :
  Permutation (flatten (fold_left (group_step lib) l d))
              (flatten d ++ flat_map (fun i => value_ids (find_value lib i)) l).
Proof.
  revert d. induction l as [|x l IH]; intros d; cbn [fold_left flat_map].
  - now rewrite app_nil_r.
  - rewrite IH. unfold group_step. rewrite flatten_dict_add.
    now rewrite <- app_assoc.
Qed.

Lemma found_ids (lib : list ActorBlueprint.t) (l : list string) :
  incl l (map ActorBlueprint.id lib) ->
  flat_map (fun i => value_ids (find_value lib i)) l = l.
Proof.
  induction l as [|x l IH]; intros H; cbn; [reflexivity|].
  destruct (find_value_some lib x) as (bp & ->); [apply H; now left|].
  cbn. f_equal. apply IH. intros y Hy. apply H. now right.
Qed.

Lemma sorted_ids_incl (l : list string) :
  incl (Py.sorted Py.lt (fun bp_id => bp_id) l) l.
Proof.
  intros x Hx. eapply Permutation_in; [|exact Hx].
  apply sorted_perm.
Qed.

Lemma keys_dict_add (d : bp_dict_t) (k : string) (v : value_t) :
  map fst (dict_add d k v) =
  if existsb (String.eqb k) (map fst d) then map fst d else (map fst d ++ [k])%list.
Proof.
  induction d as [|[k' vs] d IH]; cbn; [reflexivity|].
  rewrite (String.eqb_sym k k').
  destruct (k' =? k)%string; cbn; [reflexivity|].
  rewrite IH. now destruct (existsb (String.eqb k) (map fst d)).
Qed.

Lemma keys_fold (lib : list ActorBlueprint.t) (l : list string) (d : bp_dict_t) :
  map fst (fold_left (group_step lib) l d) =
  (map fst d ++ first_seen (map fst d) (map split_dot_0 l))%list.
Proof.
  revert d. induction l as [|x l IH]; intros d; cbn [fold_left map first_seen].
  - now rewrite app_nil_r.
  - rewrite IH. unfold group_step. rewrite keys_dict_add.
    destruct (existsb (String.eqb (split_dot_0 x)) (map fst d)); [reflexivity|].
    now rewrite <- app_assoc.
Qed.

Lemma dict_add_well_grouped (d : bp_dict_t) (bp_id : string) (bp : ActorBlueprint.t) :
  Forall well_grouped d ->
  Forall well_grouped (dict_add d (split_dot_0 bp_id) (Some (bp_id, bp))).
Proof.
  induction d as [|[k vs] d IH]; intros H; cbn.
  - repeat constructor. now exists bp_id, bp.
  - inversion H as [|? ? Hk Hd]; subst.
    destruct (String.eqb_spec k (split_dot_0 bp_id)) as [E|E].
    + constructor; [|exact Hd]. unfold well_grouped in *. cbn in *.
      apply Forall_app. split; [exact Hk|].
      repeat constructor. now exists bp_id, bp.
    + constructor; [exact Hk | now apply IH].
Qed.

Lemma fold_well_grouped (lib : list ActorBlueprint.t) (l : list string) (d : bp_dict_t) :
  incl l (map ActorBlueprint.id lib) ->
  Forall well_grouped d ->
  Forall well_grouped (fold_left (group_step lib) l d).
Proof.
  revert d. induction l as [|x l IH]; intros d Hl Hd; cbn [fold_left]; [exact Hd|].
  apply IH.
  - intros y Hy. apply Hl. now right.
  - unfold group_step.
    destruct (find_value_some lib x) as (bp & ->); [apply Hl; now left|].
    now apply dict_add_well_grouped.
Qed.

Lemma group_well_grouped (lib : list ActorBlueprint.t) :
  Forall well_grouped (group lib (map ActorBlueprint.id lib)).
Proof.
  apply fold_well_grouped; [apply sorted_ids_incl | constructor].
Qed.

(** ** Rendering, loop by loop *)

Lemma render_attr_run (attr : ActorAttribute.t) (s e : string) :
  render_attr attr (mkMarkdownFile s 2 e)
  = (tt, mkMarkdownFile (s ++ attr_text attr) 2 e).
Proof.
  unfold render_attr, attr_text, bind.
  destruct (ActorAttribute.is_modifiable attr); cbn;
    rewrite !append_assoc; cbn; rewrite ?append_assoc; reflexivity.
Qed.

Lemma for_each_attr_run (l : list ActorAttribute.t) (s e : string) :
  for_each l render_attr (mkMarkdownFile s 2 e)
  = (tt, mkMarkdownFile (s ++ concat_all (map attr_text l)) 2 e).
Proof.
  revert s. induction l as [|attr l IH]; intros s; cbn [for_each map concat_all fold_right].
  - unfold ret. now rewrite append_empty_r.
  - unfold bind. rewrite render_attr_run, IH.
    fold (concat_all (map attr_text l)). now rewrite append_assoc.
Qed.

Lemma render_bp_run (bp_id : string) (bp : ActorBlueprint.t) (s : string) :
  render_bp (Some (bp_id, bp)) (mkMarkdownFile s 0 ("  " ++ Py.nl))
  = Ok (tt, mkMarkdownFile (s ++ bp_text (bp_id, bp)) 0 ("  " ++ Py.nl)).
Proof.
  unfold render_bp, bp_text, rendered_attrs, gbind, lift, item0, item1, gret.
  cbn -[for_each Py.sorted].
  rewrite for_each_attr_run.
  cbn -[Py.sorted]. rewrite !append_assoc. cbn -[Py.sorted].
  rewrite ?append_assoc. reflexivity.
Qed.

Lemma gfor_each_bp_run (values : list value_t) (s : string) :
  Forall is_some values ->
  gfor_each values render_bp (mkMarkdownFile s 0 ("  " ++ Py.nl))
  = Ok (tt, mkMarkdownFile (s ++ concat_all (map bp_text (entries values))) 0
              ("  " ++ Py.nl)).
Proof.
  intros H. revert s. induction H as [|v values Hv _ IH]; intros s.
  - cbn. unfold gret. now rewrite append_empty_r.
  - destruct v as [[bp_id bp]|]; [|now elim Hv].
    cbn [gfor_each]. unfold gbind. rewrite render_bp_run, IH.
    cbn [entries flat_map app map concat_all fold_right].
    fold (entries values). fold (concat_all (map bp_text (entries values))).
    now rewrite append_assoc.
Qed.

Lemma well_grouped_sorted_some (item : string * list value_t) :
  well_grouped item ->
  Forall is_some (Py.sorted value_lt (fun bp => bp) (snd item)).
Proof.
  intros H. eapply Permutation_Forall.
  - symmetry. apply sorted_perm.
  - eapply Forall_impl; [|exact H].
    intros v (i & bp & -> & _). discriminate.
Qed.

Lemma render_type_run (item : string * list value_t) (s : string) :
  well_grouped item ->
  render_type item (mkMarkdownFile s 0 ("  " ++ Py.nl))
  = Ok (tt, mkMarkdownFile
              (s ++ section_text
                      (fst item, entries (Py.sorted value_lt (fun bp => bp) (snd item))))
              0 ("  " ++ Py.nl)).
Proof.
  intros H. apply well_grouped_sorted_some in H.
  destruct item as [key value]. unfold render_type, gbind, lift, section_text.
  rewrite title_run. unfold appended. cbn [_data _list_depth endl snd fst] in *.
  rewrite (gfor_each_bp_run _ _ H).
  change (Py.mul "#" 3) with "###".
  cbn -[Py.sorted]. rewrite !append_assoc. cbn -[Py.sorted].
  rewrite ?append_assoc. reflexivity.
Qed.

Lemma gfor_each_type_run (bp_dict : bp_dict_t) (s : string) :
  Forall well_grouped bp_dict ->
  gfor_each bp_dict render_type (mkMarkdownFile s 0 ("  " ++ Py.nl))
  = Ok (tt, mkMarkdownFile
              (s ++ concat_all
                      (map section_text
                         (map (fun item =>
                                 (fst item,
                                  entries (Py.sorted value_lt (fun bp => bp) (snd item))))
                              bp_dict)))
              0 ("  " ++ Py.nl)).
Proof.
  intros H. revert s. induction H as [|item d Hi _ IH]; intros s.
  - cbn. unfold gret. now rewrite append_empty_r.
  - cbn [gfor_each]. unfold gbind. rewrite (render_type_run _ _ Hi), IH.
    cbn [map concat_all fold_right]. now rewrite append_assoc.
Qed.

Lemma render_intro_run :
  render_intro MarkdownFile.__init__
  = (tt, mkMarkdownFile intro_text 0 ("  " ++ Py.nl)).
Proof. vm_compute. reflexivity. Qed.

(** The document [generate_pb_docs] returns, in closed form. *)
Lemma generate_pb_docs_run (lib : list ActorBlueprint.t) :
  generate_pb_docs (Ok lib)
  = (["Generating API blueprint documentation..."],
     Ok (document_text (sections lib))).
Proof.
  unfold generate_pb_docs, gbind, lift. rewrite render_intro_run.
  rewrite (gfor_each_type_run _ _ (group_well_grouped lib)).
  reflexivity.
Qed.

Lemma first_seen_nodup (seen l : list string) :
  NoDup seen -> NoDup (seen ++ first_seen seen l).
Proof.
  revert seen. induction l as [|x l IH]; intros seen H; cbn.
  - now rewrite app_nil_r.
  - destruct (existsb (String.eqb x) seen) eqn:E; [now apply IH|].
    change (x :: first_seen (seen ++ [x]) l)
      with ([x] ++ first_seen (seen ++ [x]) l)%list.
    rewrite app_assoc. apply IH.
    apply (Permutation_NoDup (Permutation_cons_append seen x)).
    constructor; [|exact H].
    intros Hin. assert (existsb (String.eqb x) seen = true); [|congruence].
    apply existsb_exists. exists x. split; [exact Hin | apply String.eqb_refl].
Qed.

(** ** The claims about the generator *)

(** C1. When the provider cannot be reached (the fetch raises
    [RuntimeError]), [main] prints the progress line and then the four-line
    diagnostic, writes no file, and ends through [sys.exit(0)]: no exception
    is left uncaught, and the status is 0, the status of a run that
    succeeds. *)
Theorem connection_failure_exits_with_status_0
    (write : result unit) (lib : list ActorBlueprint.t) :
  let failed := main (Raise RuntimeError) write in
  stdout failed = "Generating API blueprint documentation..." :: connection_diagnostic
  /\ length connection_diagnostic = 4%nat
  /\ bp_library_md failed = None
  /\ ending failed = SysExit 0
  /\ exit_status (ending failed) = 0
  /\ exit_status (ending failed) = exit_status (ending (main (Ok lib) (Ok tt))).
Proof.
  cbv zeta. repeat apply conj; try reflexivity.
  unfold main. rewrite generate_pb_docs_run. reflexivity.
Qed.

(** C3. Grouping the identifiers of a library by the text before the first
    dot and flattening the groups again gives back the identifiers, each as
    often as it came: the flattened list is a permutation of the original.
    Every group holds only identifiers of its own key, and no key has two
    groups. *)
Theorem group_then_flatten (lib : list ActorBlueprint.t) :
  let bp_dict := group lib (map ActorBlueprint.id lib) in
  Permutation (flatten bp_dict) (map ActorBlueprint.id lib)
  /\ Forall well_grouped bp_dict
  /\ NoDup (map fst bp_dict).
Proof.
  cbv zeta. split; [|split].
  - unfold group. rewrite flatten_fold. cbn [flatten flat_map app].
    rewrite found_ids by apply sorted_ids_incl.
    apply sorted_perm.
  - apply group_well_grouped.
  - unfold group. rewrite keys_fold. apply first_seen_nodup. constructor.
Qed.

(** C4. In the document returned for a library, each section lists its
    blueprint entries in non-decreasing order of identifier, and each
    entry lists its attribute lines in non-decreasing order of attribute
    identifier. *)
Theorem entries_and_attributes_in_order (lib : list ActorBlueprint.t) :
  snd (generate_pb_docs (Ok lib)) = Ok (document_text (sections lib))
  /\ Forall
       (fun sec =>
          non_decreasing (map fst (snd sec))
          /\ Forall
               (fun entry =>
                  non_decreasing (map ActorAttribute.id (rendered_attrs (snd entry))))
               (snd sec))
       (sections lib).
Proof.
  split; [now rewrite generate_pb_docs_run|].
  unfold sections. apply Forall_map, Forall_forall. intros item _. cbn [snd].
  split; [apply sorted_values_non_decreasing|].
  apply Forall_forall. intros entry _. apply sorted_ids_non_decreasing.
Qed.

(** The blueprint type of an identifier is the text before its first dot:
    it has no dot, and the identifier is the type alone or the type, a dot
    and more text. *)
Lemma split_dot_0_decompose (bp_id : string) :
  dotless (split_dot_0 bp_id) = true
  /\ (bp_id = split_dot_0 bp_id
      \/ exists rest, bp_id = split_dot_0 bp_id ++ "." ++ rest).
Proof.
  induction bp_id as [|c s [IH1 IH2]]; cbn; [split; [reflexivity | now left]|].
  destruct (Ascii.eqb_spec c ".") as [->|E]; cbn.
  - split; [reflexivity|]. right. now exists s.
  - apply Ascii.eqb_neq in E. rewrite E, IH1. split; [reflexivity|].
    destruct IH2 as [H|(rest & H)].
    + left. now rewrite <- H.
    + right. exists rest. cbn in H. cbn. now rewrite <- H.
Qed.

(** C5. The sections of the document, each opened by the level-3 heading
    of its blueprint type, come in the order in which the types are first met
    when the identifiers are scanned in sorted order: the scan is a
    permutation of the identifiers of the library in non-decreasing order,
    and the type of an identifier is the text before its first dot. *)
Theorem headings_in_first_occurrence_order (lib : list ActorBlueprint.t) :
  snd (generate_pb_docs (Ok lib)) = Ok (document_text (sections lib))
  /\ (forall sec, prefix (Py.nl ++ "### " ++ fst sec ++ Py.nl) (section_text sec) = true)
  /\ map fst (sections lib)
     = first_occurrences
         (map split_dot_0
            (Py.sorted Py.lt (fun bp_id => bp_id) (map ActorBlueprint.id lib)))
  /\ Permutation
       (Py.sorted Py.lt (fun bp_id => bp_id) (map ActorBlueprint.id lib))
       (map ActorBlueprint.id lib)
  /\ non_decreasing
       (Py.sorted Py.lt (fun bp_id => bp_id) (map ActorBlueprint.id lib))
  /\ (forall bp_id,
        dotless (split_dot_0 bp_id) = true
        /\ (bp_id = split_dot_0 bp_id
            \/ exists rest, bp_id = split_dot_0 bp_id ++ "." ++ rest)).
Proof.
  split; [now rewrite generate_pb_docs_run | split; [|split; [|split; [|split]]]].
  - intros sec. unfold section_text.
    rewrite <- !append_assoc. apply prefix_append.
  - unfold sections, group. rewrite map_map. cbn [fst].
    rewrite (keys_fold lib _ []). reflexivity.
  - apply sorted_perm.
  - pose proof (sorted_ids_non_decreasing (fun bp_id : string => bp_id)
                  (map ActorBlueprint.id lib)) as H.
    now rewrite map_id in H.
  - apply split_dot_0_decompose.
Qed.

(** The order of first occurrence need not be the alphabetical one: ["a-b"]
    comes before ["a"] here, since ["a-b.y"] sorts before ["a.x"]. *)
Example headings_not_alphabetical :
  map fst (sections [ActorBlueprint.mk "a.x" []; ActorBlueprint.mk "a-b.y" []])
  = ["a-b"; "a"]
  /\ Py.lt "a" "a-b" = true.
Proof. split; reflexivity. Qed.

(** * Further properties of the script *)

(** ** More on strings *)

Lemma length_append (a b : string) :
  String.length (a ++ b) = (String.length a + String.length b)%nat.
Proof.
  induction a as [|c a IH]; cbn; [reflexivity | now rewrite IH].
Qed.

Lemma append_cancel_l (p a b : string) : p ++ a = p ++ b -> a = b.
Proof.
  induction p as [|c p IH]; cbn; [auto|].
  intros H. injection H as H. now apply IH.
Qed.

Lemma append_cancel_r (a b q : string) : a ++ q = b ++ q -> a = b.
Proof.
  revert b. induction a as [|c a IH]; intros [|c' b] H; cbn in H.
  - reflexivity.
  - apply (f_equal String.length) in H. cbn in H. rewrite length_append in H. lia.
  - apply (f_equal String.length) in H. cbn in H. rewrite length_append in H. lia.
  - injection H as -> H. f_equal. now apply IH.
Qed.

Lemma length_repeat_str (s : string) (n : nat) :
  String.length (Py.repeat_str s n) = (n * String.length s)%nat.
Proof.
  induction n as [|n IH]; cbn; [reflexivity|].
  now rewrite length_append, IH.
Qed.

Lemma appended_nothing (self : MarkdownFile) :
  appended self EmptyString (_list_depth self) = self.
Proof.
  unfold appended. rewrite append_empty_r. now destruct self.
Qed.

Lemma appended_twice (self : MarkdownFile) (s1 s2 : string) (d1 d2 : Z) :
  appended (appended self s1 d1) s2 d2 = appended self (s1 ++ s2) d2.
Proof.
  unfold appended. cbn. now rewrite append_assoc.
Qed.

(** ** More on the accumulator *)

Lemma calls_app (os os' : list op) (self : MarkdownFile) :
  exec (calls (os ++ os')) self = exec (calls os') (exec (calls os) self).
Proof.
  revert self. induction os as [|o os IH]; intros self; [reflexivity|].
  cbn [calls app]. now rewrite !exec_bind, IH.
Qed.

Lemma calls_run (os : list op) (self : MarkdownFile) :
  exists s d, exec (calls os) self = appended self s d.
Proof.
  revert self. induction os as [|o os IH]; intros self.
  - exists EmptyString, (_list_depth self). cbn. now rewrite appended_nothing.
  - cbn [calls]. rewrite exec_bind.
    destruct (call_run o self) as (s1 & d1 & -> & _).
    destruct (IH (appended self s1 d1)) as (s2 & d2 & ->).
    exists (s1 ++ s2), d2. apply appended_twice.
Qed.

Lemma call_depth (o : op) (self : MarkdownFile) :
  _list_depth (exec (call o) self) =
  match o with
  | ListPop | ListPopn => Z.max (_list_depth self - 1) 0
  | _ => _list_depth self + opens o
  end.
Proof.
  destruct o; unfold exec; cbn [call opens]; unfold bind.
  - rewrite data_run. cbn. lia.
  - rewrite list_push_run. now destruct (Py.truthy buf).
  - rewrite list_pushn_run, list_push_run. now destruct (Py.truthy _).
  - now rewrite list_pop_run.
  - now rewrite list_popn_run.
  - rewrite list_depth_run. cbn. lia.
  - rewrite text_run. cbn. lia.
  - rewrite textn_run. cbn. lia.
  - rewrite not_title_run. cbn. lia.
  - rewrite title_run. cbn. lia.
  - rewrite new_line_run. cbn. lia.
  - rewrite code_block_run. cbn. lia.
Qed.

(** [list_depth] returns the empty string in every state, also at a depth
    above 0 with a buffer that ends in a line break, and leaves the object as
    it is. *)
Theorem list_depth_always_empty (self : MarkdownFile) :
  eval MarkdownFile.list_depth self = EmptyString
  /\ exec MarkdownFile.list_depth self = self.
Proof.
  unfold eval, exec. now rewrite list_depth_run.
Qed.

(** [code_block] returns the fence, the language, the text on lines of its
    own and the closing fence, with no indentation at any depth and whatever
    the buffer holds. *)
Theorem code_block_value (self : MarkdownFile) (buf language : string) :
  eval (MarkdownFile.code_block buf language) self
  = "```" ++ language ++ Py.nl ++ buf ++ Py.nl ++ "```" ++ Py.nl.
Proof.
  unfold eval. now rewrite code_block_run.
Qed.

(** [text] of the empty string changes nothing, and two [text] calls in a
    row do what one call with the two texts joined does. *)
Theorem text_composes (self : MarkdownFile) (a b : string) :
  exec (MarkdownFile.text EmptyString) self = self
  /\ exec (MarkdownFile.text a ;; MarkdownFile.text b) self
     = exec (MarkdownFile.text (a ++ b)) self.
Proof.
  split.
  - unfold exec. rewrite text_run. apply appended_nothing.
  - rewrite exec_bind. unfold exec. rewrite !text_run. apply appended_twice.
Qed.

(** At a depth that is not negative, [list_pop] undoes what [list_push]
    did to the depth; after [list_push('')] it gives back the very object. *)
Theorem list_push_then_list_pop (self : MarkdownFile) (buf : string)
    (Hdepth : 0 <= _list_depth self) :
  _list_depth (exec (MarkdownFile.list_push buf ;; MarkdownFile.list_pop) self)
  = _list_depth self
  /\ exec (MarkdownFile.list_push EmptyString ;; MarkdownFile.list_pop) self = self.
Proof.
  rewrite !exec_bind. unfold exec. rewrite !list_pop_run, !list_push_run.
  split.
  - destruct (Py.truthy buf); cbn; lia.
  - cbn. rewrite append_empty_r. destruct self as [s d e]. cbn in *.
    f_equal. lia.
Qed.

Lemma list_push_then_list_pop_witness :
  0 <= _list_depth MarkdownFile.__init__
  /\ exec (MarkdownFile.list_push EmptyString ;; MarkdownFile.list_pop)
       MarkdownFile.__init__ = MarkdownFile.__init__.
Proof.
  split; [cbn; lia|].
  apply (list_push_then_list_pop MarkdownFile.__init__ "item"). cbn. lia.
Defined.

(** [k] calls of [list_pop] in a row take [k] from a depth that is not
    negative, stopping at 0, and leave the buffer alone. *)
Theorem list_pop_repeated (self : MarkdownFile) (k : nat)
    (Hdepth : 0 <= _list_depth self) :
  exec (calls (repeat ListPop k)) self
  = mkMarkdownFile (_data self) (Z.max (_list_depth self - Z.of_nat k) 0) (endl self).
Proof.
  revert self Hdepth. induction k as [|k IH]; intros [s d e] H; cbn in H.
  - cbn. f_equal. lia.
  - cbn [repeat calls]. rewrite exec_bind.
    change (exec (call ListPop) (mkMarkdownFile s d e))
      with (mkMarkdownFile s (Z.max (d - 1) 0) e).
    rewrite IH by (cbn; lia). cbn. f_equal. lia.
Qed.

Lemma list_pop_repeated_witness :
  0 <= _list_depth (mkMarkdownFile "- a" 2 ("  " ++ Py.nl))
  /\ exec (calls (repeat ListPop 5)) (mkMarkdownFile "- a" 2 ("  " ++ Py.nl))
     = mkMarkdownFile "- a" 0 ("  " ++ Py.nl).
Proof.
  split; [cbn; lia|].
  apply (list_pop_repeated (mkMarkdownFile "- a" 2 ("  " ++ Py.nl)) 5). cbn. lia.
Defined.

(** No method assigns [endl]: after any sequence of calls it is what it was. *)
Theorem endl_never_changes (os : list op) (self : MarkdownFile) :
  endl (exec (calls os) self) = endl self.
Proof.
  destruct (calls_run os self) as (s & d & ->). reflexivity.
Qed.

(** After any sequence of calls on a fresh object the depth is at most the
    number of [list_push] and [list_pushn] calls, and at least that number
    less the number of [list_pop] and [list_popn] calls. *)
Theorem depth_between_opens_and_closes (os : list op) :
  total opens os - total closes os
  <= _list_depth (exec (calls os) MarkdownFile.__init__)
  <= total opens os.
Proof.
  assert (G : forall os self, 0 <= _list_depth self ->
            _list_depth self + total opens os - total closes os
            <= _list_depth (exec (calls os) self)
            <= _list_depth self + total opens os).
  { clear os. induction os as [|o os IH]; intros self H; [cbn; lia|].
    cbn [calls total fold_right]. fold (total opens os). fold (total closes os).
    rewrite exec_bind.
    pose proof (call_depth o self) as Hd.
    assert (H0 : 0 <= _list_depth (exec (call o) self))
      by (rewrite Hd; destruct o; cbn; lia).
    specialize (IH _ H0). rewrite Hd in IH.
    destruct o; cbn [opens closes] in *; lia. }
  specialize (G os MarkdownFile.__init__). cbn [_list_depth MarkdownFile.__init__] in G.
  lia.
Qed.

(** Along a sequence of calls the buffer only grows at its end: the buffer
    after the first calls is a prefix of the buffer after all of them. *)
Theorem buffer_grows_along_calls (os os' : list op) (self : MarkdownFile) :
  prefix (_data (exec (calls os) self)) (_data (exec (calls (os ++ os')) self)) = true.
Proof.
  rewrite calls_app.
  destruct (calls_run os' (exec (calls os) self)) as (s & d & ->).
  apply prefix_append.
Qed.

(** [title] makes the buffer longer by the heading text, the marks (as
    many as [strongness], none when it is 0 or less), and exactly three more
    characters: two line breaks and a space, never an indentation. *)
Theorem title_length (self : MarkdownFile) (strongness : Z) (buf : string) :
  String.length (_data (exec (MarkdownFile.title strongness buf) self))
  = (String.length (_data self) + Z.to_nat (Z.max strongness 0)
     + String.length buf + 3)%nat.
Proof.
  unfold exec. rewrite title_run. cbn [snd appended _data].
  unfold Py.mul, Py.nl.
  repeat (rewrite ?length_append, ?length_repeat_str; cbn [String.length append]).
  lia.
Qed.

(** ** The helpers *)

Lemma join0_concat_all (elem : list string) : join0 elem = concat_all elem.
Proof.
  unfold join0, join. induction elem as [|x elem IH]; [reflexivity|].
  cbn [String.concat concat_all fold_right]. destruct elem as [|y elem].
  - cbn. now rewrite append_empty_r.
  - rewrite IH. reflexivity.
Qed.

Lemma concat_all_app (l1 l2 : list string) :
  concat_all (l1 ++ l2) = concat_all l1 ++ concat_all l2.
Proof.
  induction l1 as [|x l1 IH]; cbn; [reflexivity|].
  fold (concat_all (l1 ++ l2)). fold (concat_all l1).
  now rewrite IH, append_assoc.
Qed.

(** With the default separator [join] is plain concatenation: joining two
    lists put end to end gives the two joins put end to end, and joining no
    strings gives the empty string. *)
Theorem join0_app (l1 l2 : list string) :
  join0 (l1 ++ l2) = join0 l1 ++ join0 l2
  /\ join0 [] = EmptyString.
Proof.
  split; [|reflexivity].
  rewrite !join0_concat_all. apply concat_all_app.
Qed.

(** The length of [join(elem, separator)]: the lengths of the elements,
    and one separator for every element but the first. *)
Theorem join_length (elem : list string) (separator : string) :
  String.length (join elem separator)
  = (list_sum (map String.length elem)
     + (length elem - 1) * String.length separator)%nat.
Proof.
  unfold join. induction elem as [|x elem IH]; [reflexivity|].
  destruct elem as [|y elem].
  - cbn. lia.
  - change (String.concat separator (x :: y :: elem))
      with (x ++ separator ++ String.concat separator (y :: elem)).
    rewrite !length_append, IH. cbn [map list_sum fold_right length]. lia.
Qed.

Lemma wrap_inj (pre post a b : string) :
  pre ++ a ++ post = pre ++ b ++ post -> a = b.
Proof.
  intros H. apply append_cancel_l in H. now apply append_cancel_r in H.
Qed.

(** The styling helpers lose nothing: two texts that come out the same
    went in the same ([color] for one and the same colour). *)
Theorem styling_is_injective (a b : string) :
  (bold a = bold b -> a = b)
  /\ (italic a = italic b -> a = b)
  /\ (code a = code b -> a = b)
  /\ (sub a = sub b -> a = b)
  /\ (parentheses a = parentheses b -> a = b)
  /\ (forall col, color col a = color col b -> a = b).
Proof.
  repeat apply conj.
  - exact (wrap_inj "**" "**" a b).
  - exact (wrap_inj "_" "_" a b).
  - exact (wrap_inj "`" "`" a b).
  - exact (wrap_inj "<sub>" "</sub>" a b).
  - exact (wrap_inj "(" ")" a b).
  - intros col H.
    change (("<font color=" ++ Py.dq) ++ col ++ (Py.dq ++ ">") ++ a ++ "</font>"
            = ("<font color=" ++ Py.dq) ++ col ++ (Py.dq ++ ">") ++ b ++ "</font>") in H.
    do 3 apply append_cancel_l in H. now apply append_cancel_r in H.
Qed.

Lemma styling_is_injective_witness :
  bold "car" = bold "car" /\ "car" = "car".
Proof.
  split; [reflexivity|].
  destruct (styling_is_injective "car" "car") as (H & _).
  apply H. reflexivity.
Defined.

Lemma contains_getitem {V} (dic : list (string * V)) (key : string) :
  contains dic key = true <-> exists v, getitem dic key = Some v.
Proof.
  induction dic as [|[k v] dic IH]; cbn.
  - split; [discriminate | intros (v & H); discriminate].
  - destruct (k =? key)%string; cbn; [|exact IH].
    split; [now exists v | reflexivity].
Qed.

(** [valid_dic_val] never raises [KeyError]: the test [value in dic] guards
    the lookup. Its result is true exactly when the key is there with a value
    that is true. It is the object [False] for a missing key, and exactly
    when the key is missing or the value stored is [False]: the result does
    not tell the two apart. *)
Theorem valid_dic_val_guarded {V} (truth : V -> bool)
    (dic : list (string * py_obj V)) (value : string) :
  exists o,
    valid_dic_val dic value = Some o
    /\ (obj_truthy truth o = true
        <-> exists v, getitem dic value = Some v /\ obj_truthy truth v = true)
    /\ (o = PyFalse
        <-> getitem dic value = None \/ getitem dic value = Some PyFalse)
    /\ (getitem dic value = None <-> contains dic value = false).
Proof.
  assert (Hnone : getitem dic value = None <-> contains dic value = false).
  { pose proof (contains_getitem dic value) as H.
    destruct (contains dic value), (getitem dic value) as [v|];
      split; try reflexivity; try discriminate; intros _.
    - destruct (proj1 H eq_refl) as (v & Hv). discriminate.
    - assert (false = true) by (apply H; now exists v). discriminate. }
  unfold valid_dic_val.
  destruct (contains dic value) eqn:E.
  - destruct (proj1 (contains_getitem dic value) E) as (v & Hv). rewrite Hv.
    exists v. split; [reflexivity | split; [|split]].
    + split; [now exists v | intros (v' & [= <-] & H); exact H].
    + split; [intros ->; now right | intros [H|[= ->]]; [discriminate | reflexivity]].
    + rewrite <- Hv. exact Hnone.
  - exists PyFalse. split; [reflexivity | split; [|split]].
    + split; [discriminate|]. intros (v & Hv & _).
      rewrite (proj2 Hnone eq_refl) in Hv. discriminate.
    + split; [intros _; left; now apply Hnone | reflexivity].
    + exact Hnone.
Qed.

(** A key stored with [False] and a key that is missing give the same
    result. *)
Example valid_dic_val_stored_false :
  valid_dic_val [("a", @PyFalse string)] "a" = Some PyFalse
  /\ valid_dic_val [("a", @PyFalse string)] "b" = Some PyFalse.
Proof. split; reflexivity. Qed.

(** ** The grouping, further *)

(** The blueprint type of an identifier has no dot in it and is the front
    of the identifier. *)
Theorem split_dot_0_prefix (s : string) :
  dotless (split_dot_0 s) = true /\ prefix (split_dot_0 s) s = true.
Proof.
  induction s as [|c s [IH1 IH2]]; cbn; [now split|].
  destruct (c =? ".")%char eqn:E; cbn; [now split|].
  rewrite E, IH1. split; [reflexivity|].
  destruct (ascii_dec c c) as [_|n]; [exact IH2 | now elim n].
Qed.

(** A type without a dot is read back from any identifier made of it, a
    dot and more text, and from itself when the identifier has no dot. *)
Theorem split_dot_0_of_type (bp_type rest : string)
    (Hdotless : dotless bp_type = true) :
  split_dot_0 (bp_type ++ "." ++ rest) = bp_type
  /\ split_dot_0 bp_type = bp_type.
Proof.
  induction bp_type as [|c t IH]; cbn in *; [now split|].
  apply andb_true_iff in Hdotless as [Hc Ht].
  apply negb_true_iff in Hc. rewrite Hc.
  destruct (IH Ht) as [IH1 IH2]. cbn in IH1. now rewrite IH1, IH2.
Qed.

Lemma split_dot_0_of_type_witness :
  dotless "vehicle" = true
  /\ split_dot_0 "vehicle.audi.a2" = "vehicle".
Proof.
  split; [reflexivity|].
  apply (split_dot_0_of_type "vehicle" "audi.a2"). reflexivity.
Defined.

Lemma find_value_fold_none (lib : list ActorBlueprint.t) (bp_id : string) (acc : value_t) :
  fold_left
    (fun value bp =>
       if (ActorBlueprint.id bp =? bp_id)%string then Some (bp_id, bp) else value)
    lib acc = None
  <-> acc = None /\ ~ In bp_id (map ActorBlueprint.id lib).
Proof.
  revert acc. induction lib as [|b lib IH]; intros acc; cbn.
  - tauto.
  - rewrite IH. destruct (String.eqb_spec (ActorBlueprint.id b) bp_id) as [E|E].
    + split; [intros [H _]; discriminate | intros [_ H]; elim H; now left].
    + tauto.
Qed.

(** The search for the blueprint of an identifier comes back empty exactly
    when no blueprint of the library has that identifier. *)
Theorem find_value_none_iff (lib : list ActorBlueprint.t) (bp_id : string) :
  find_value lib bp_id = None <-> ~ In bp_id (map ActorBlueprint.id lib).
Proof.
  unfold find_value. rewrite find_value_fold_none. tauto.
Qed.

Lemma find_value_none_iff_witness :
  find_value [ActorBlueprint.mk "vehicle.car" []] "walker.person" = None.
Proof.
  apply find_value_none_iff. cbn. intros [H|[]]. discriminate.
Defined.

Lemma find_value_fold_keep (l : list ActorBlueprint.t) (bp_id : string) (acc : value_t) :
  (forall b, In b l -> ActorBlueprint.id b <> bp_id) ->
  fold_left
    (fun value bp =>
       if (ActorBlueprint.id bp =? bp_id)%string then Some (bp_id, bp) else value)
    l acc = acc.
Proof.
  revert acc. induction l as [|b l IH]; intros acc H; cbn; [reflexivity|].
  destruct (String.eqb_spec (ActorBlueprint.id b) bp_id) as [E|E].
  - elim (H b); [now left | exact E].
  - apply IH. intros b' Hb'. apply H. now right.
Qed.

(** When several blueprints share an identifier the search returns the
    last of them. *)
Theorem find_value_last_wins (l1 l2 : list ActorBlueprint.t) (bp : ActorBlueprint.t)
    (Hlast : forall b, In b l2 -> ActorBlueprint.id b <> ActorBlueprint.id bp) :
  find_value (l1 ++ bp :: l2) (ActorBlueprint.id bp) = Some (ActorBlueprint.id bp, bp).
Proof.
  unfold find_value. rewrite fold_left_app. cbn [fold_left].
  rewrite String.eqb_refl. now apply find_value_fold_keep.
Qed.

Lemma find_value_last_wins_witness :
  find_value
    [ActorBlueprint.mk "vehicle.car" []; ActorBlueprint.mk "walker.person" [];
     ActorBlueprint.mk "vehicle.car" [ActorAttribute.mk "color" "String" true];
     ActorBlueprint.mk "static.prop" []]
    "vehicle.car"
  = Some ("vehicle.car",
          ActorBlueprint.mk "vehicle.car" [ActorAttribute.mk "color" "String" true]).
Proof.
  apply (find_value_last_wins
           [ActorBlueprint.mk "vehicle.car" []; ActorBlueprint.mk "walker.person" []]
           [ActorBlueprint.mk "static.prop" []]
           (ActorBlueprint.mk "vehicle.car" [ActorAttribute.mk "color" "String" true])).
  intros b [<-|[]]. discriminate.
Defined.

Lemma dict_add_nonempty (d : bp_dict_t) (k : string) (v : value_t) :
  Forall (fun item => snd item <> []) d ->
  Forall (fun item => snd item <> []) (dict_add d k v).
Proof.
  induction d as [|[k' vs] d IH]; intros H; cbn.
  - repeat constructor. discriminate.
  - inversion H as [|? ? Hk Hd]; subst.
    destruct (k' =? k)%string; constructor; auto.
    cbn. now destruct vs.
Qed.

(** No group is empty, whatever the library and the identifiers: a key
    enters the dictionary together with its first entry. *)
Theorem groups_never_empty (lib : list ActorBlueprint.t) (blueprint_ids : list string) :
  Forall (fun item => snd item <> []) (group lib blueprint_ids).
Proof.
  unfold group.
  generalize (Py.sorted Py.lt (fun bp_id => bp_id) blueprint_ids) as l.
  assert (G : forall l d, Forall (fun item : string * list value_t => snd item <> []) d ->
            Forall (fun item => snd item <> []) (fold_left (group_step lib) l d)).
  { induction l as [|x l IH]; intros d H; cbn [fold_left]; [exact H|].
    apply IH. now apply dict_add_nonempty. }
  intros l. apply G. constructor.
Qed.

Lemma in_first_seen (seen l : list string) (x : string) :
  In x (seen ++ first_seen seen l) <-> In x seen \/ In x l.
Proof.
  revert seen. induction l as [|y l IH]; intros seen; cbn.
  - rewrite app_nil_r. tauto.
  - destruct (existsb (String.eqb y) seen) eqn:E.
    + rewrite IH. apply existsb_exists in E as (z & Hz & Ez).
      apply String.eqb_eq in Ez. subst z. intuition (subst; auto).
    + change (y :: first_seen (seen ++ [y]) l)
        with ([y] ++ first_seen (seen ++ [y]) l)%list.
      rewrite app_assoc, IH, in_app_iff. cbn. tauto.
Qed.

(** The keys of the dictionary are exactly the blueprint types of the
    identifiers given. *)
Theorem group_keys_are_the_types (lib : list ActorBlueprint.t)
    (blueprint_ids : list string) (bp_type : string) :
  In bp_type (map fst (group lib blueprint_ids))
  <-> exists bp_id, In bp_id blueprint_ids /\ split_dot_0 bp_id = bp_type.
Proof.
  unfold group. rewrite keys_fold. cbn [map].
  rewrite (in_first_seen [] _ bp_type), in_map_iff. cbn [In].
  split.
  - intros [[]|(i & <- & Hi)]. exists i. split; [|reflexivity].
    exact (Permutation_in i
             (sorted_perm Py.lt (fun bp_id : string => bp_id) blueprint_ids) Hi).
  - intros (i & Hi & <-). right. exists i. split; [reflexivity|].
    exact (Permutation_in i
             (Permutation_sym
                (sorted_perm Py.lt (fun bp_id : string => bp_id) blueprint_ids)) Hi).
Qed.

Lemma group_keys_are_the_types_witness :
  In "walker"
    (map fst (group [] ["vehicle.car"; "walker.person"; "vehicle.audi"])).
Proof.
  apply group_keys_are_the_types.
  exists "walker.person". split; [cbn; tauto | reflexivity].
Defined.

Lemma dict_get_dict_add (d : bp_dict_t) (k k' : string) (v : value_t) :
  dict_get (dict_add d k v) k'
  = if (k =? k')%string then (dict_get d k ++ [v])%list else dict_get d k'.
Proof.
  induction d as [|[k0 vs] d IH]; cbn.
  - now destruct (k =? k')%string.
  - destruct (String.eqb_spec k0 k) as [->|E0]; cbn.
    + now destruct (k =? k')%string.
    + rewrite IH. destruct (String.eqb_spec k0 k') as [->|E1]; [|reflexivity].
      destruct (String.eqb_spec k k') as [->|E2]; [now elim E0 | reflexivity].
Qed.

Lemma dict_get_fold (lib : list ActorBlueprint.t) (l : list string)
    (d : bp_dict_t) (k : string) :
  dict_get (fold_left (group_step lib) l d) k
  = (dict_get d k ++ map (find_value lib) (of_type k l))%list.
Proof.
  revert d. induction l as [|x l IH]; intros d; cbn [fold_left of_type filter map].
  - now rewrite app_nil_r.
  - rewrite IH. unfold group_step. rewrite dict_get_dict_add.
    fold (of_type k l).
    destruct (String.eqb_spec (split_dot_0 x) k) as [->|E]; cbn [map]; [|reflexivity].
    now rewrite <- app_assoc.
Qed.

Lemma in_dict_get (d : bp_dict_t) (k : string) (vs : list value_t) :
  NoDup (map fst d) -> In (k, vs) d -> dict_get d k = vs.
Proof.
  induction d as [|[k0 vs0] d IH]; intros Hnd Hin; [now elim Hin|].
  cbn in *. inversion Hnd as [|? ? Hk0 Hd]; subst.
  destruct Hin as [[= -> ->]|Hin].
  - now rewrite String.eqb_refl.
  - destruct (String.eqb_spec k0 k) as [->|E]; [|now apply IH].
    elim Hk0. apply in_map_iff. now exists (k, vs).
Qed.

(** Every group holds, in their sorted order, the entries of exactly the
    identifiers of its blueprint type. *)
Theorem group_contents (lib : list ActorBlueprint.t) (blueprint_ids : list string) :
  Forall
    (fun item =>
       snd item
       = map (find_value lib)
           (of_type (fst item) (Py.sorted Py.lt (fun bp_id => bp_id) blueprint_ids)))
    (group lib blueprint_ids).
Proof.
  apply Forall_forall. intros [k vs] Hin. cbn [fst snd].
  pose proof (dict_get_fold lib
                (Py.sorted Py.lt (fun bp_id => bp_id) blueprint_ids) [] k) as Hg.
  cbn [dict_get app] in Hg. rewrite <- Hg. fold (group lib blueprint_ids).
  symmetry. apply in_dict_get; [|exact Hin].
  unfold group. rewrite keys_fold. apply first_seen_nodup. constructor.
Qed.

(** *** The order on strings is transitive *)

Lemma ascii_compare_refl (c : ascii) : Ascii.compare c c = Eq.
Proof. apply N.compare_refl. Qed.

Lemma ascii_compare_lt_trans (x y z : ascii) :
  Ascii.compare x y = Lt -> Ascii.compare y z = Lt -> Ascii.compare x z = Lt.
Proof.
  unfold Ascii.compare. rewrite !N.compare_lt_iff. apply N.lt_trans.
Qed.

Lemma compare_lt_trans (a b c : string) :
  String.compare a b = Lt -> String.compare b c = Lt -> String.compare a c = Lt.
Proof.
  revert b c. induction a as [|x a IH]; intros [|y b] [|z c]; cbn; try congruence.
  destruct (Ascii.compare x y) eqn:Exy; try discriminate;
    destruct (Ascii.compare y z) eqn:Eyz; try discriminate; intros Hab Hbc.
  - apply Ascii.compare_eq_iff in Exy, Eyz. subst.
    rewrite ascii_compare_refl. now apply (IH b).
  - apply Ascii.compare_eq_iff in Exy. subst. now rewrite Eyz.
  - apply Ascii.compare_eq_iff in Eyz. subst. now rewrite Exy.
  - now rewrite (ascii_compare_lt_trans x y z).
Qed.

Lemma not_lt_trans (a b c : string) :
  Py.lt b a = false -> Py.lt c b = false -> Py.lt c a = false.
Proof.
  unfold Py.lt, String.ltb. intros Hab Hbc.
  destruct (String.compare c a) eqn:Eca; try reflexivity.
  destruct (String.compare b a) eqn:Eba; try discriminate.
  - apply String.compare_eq_iff in Eba. subst. now rewrite Eca in Hbc.
  - rewrite String.compare_antisym in Eba.
    destruct (String.compare a b) eqn:Eab; try discriminate.
    now rewrite (compare_lt_trans c a b Eca Eab) in Hbc.
Qed.

Lemma sorted_ids_strongly (l : list string) :
  StronglySorted (fun a b => Py.lt b a = false)
    (Py.sorted Py.lt (fun bp_id => bp_id) l).
Proof.
  apply Sorted_StronglySorted.
  - intros a b c. apply not_lt_trans.
  - apply (sorted_in_order Py.lt (fun bp_id : string => bp_id) lt_asym).
Qed.

Lemma strongly_sorted_filter {A} (R : A -> A -> Prop) (f : A -> bool) (l : list A) :
  StronglySorted R l -> StronglySorted R (filter f l).
Proof.
  induction 1 as [|x l Hl IH Hx]; cbn; [constructor|].
  destruct (f x); [|exact IH].
  constructor; [exact IH|].
  apply Forall_forall. intros y Hy. apply filter_In in Hy as [Hy _].
  now apply (proj1 (Forall_forall _ _) Hx).
Qed.

Lemma sorted_of_in_order {A K} (key_lt : K -> K -> bool) (key : A -> K) (l : list A) :
  Sorted (fun a b => key_lt (key b) (key a) = false) l ->
  Py.sorted key_lt key l = l.
Proof.
  induction 1 as [|x l Hl IH Hx]; cbn; [reflexivity|].
  fold (Py.sorted key_lt key l). rewrite IH.
  destruct Hx as [|y l Hy]; cbn; [reflexivity | now rewrite Hy].
Qed.

Lemma found_values_in_order (lib : list ActorBlueprint.t) (l : list string) :
  incl l (map ActorBlueprint.id lib) ->
  Sorted (fun a b => Py.lt b a = false) l ->
  Sorted (fun a b => value_lt b a = false) (map (find_value lib) l).
Proof.
  intros Hl Hs. induction Hs as [|x l Hs IH Hx]; cbn; constructor.
  - apply IH. intros y Hy. apply Hl. now right.
  - destruct Hx as [|y l Hy]; cbn; constructor.
    destruct (find_value_some lib x) as (bx & ->); [apply Hl; now left|].
    destruct (find_value_some lib y) as (b_y & ->); [apply Hl; right; now left|].
    exact Hy.
Qed.

(** In the document generator the second sort does nothing: every group
    is built in sorted order, so [sorted(value)] gives back the group as it
    is. *)
Theorem sorting_groups_is_redundant (lib : list ActorBlueprint.t) :
  Forall
    (fun item => Py.sorted value_lt (fun bp => bp) (snd item) = snd item)
    (group lib (map ActorBlueprint.id lib)).
Proof.
  pose proof (group_contents lib (map ActorBlueprint.id lib)) as H.
  eapply Forall_impl; [|exact H]. intros [k vs] Hvs. cbn [fst snd] in *.
  rewrite Hvs. apply (sorted_of_in_order value_lt (fun bp : value_t => bp)).
  apply found_values_in_order.
  - intros x Hx. apply filter_In in Hx as [Hx _].
    now apply sorted_ids_incl.
  - apply StronglySorted_Sorted, strongly_sorted_filter, sorted_ids_strongly.
Qed.

Lemma entries_ids (values : list value_t) :
  map fst (entries values) = flat_map value_ids values.
Proof.
  induction values as [|[[i bp]|] values IH]; cbn; [reflexivity | |exact IH].
  f_equal. exact IH.
Qed.

Lemma perm_flat_map {A B} (f : A -> list B) (l l' : list A) :
  Permutation l l' -> Permutation (flat_map f l) (flat_map f l').
Proof.
  induction 1 as [|x l l' _ IH|x y l|l l' l'' _ IH1 _ IH2]; cbn.
  - constructor.
  - now apply Permutation_app_head.
  - rewrite !app_assoc. apply Permutation_app_tail, Permutation_app_comm.
  - now transitivity (flat_map f l').
Qed.

(** Every blueprint identifier of the library gets one entry in the
    document for each time it occurs: the identifiers of all entries of all
    sections are a permutation of the identifiers of the library. *)
Theorem every_blueprint_rendered_once (lib : list ActorBlueprint.t) :
  Permutation (map fst (flat_map snd (sections lib))) (map ActorBlueprint.id lib).
Proof.
  unfold sections.
  transitivity (flatten (group lib (map ActorBlueprint.id lib))).
  - unfold flatten.
    induction (group lib (map ActorBlueprint.id lib)) as [|[k vs] d IH]; cbn;
      [constructor|].
    rewrite map_app, entries_ids. apply Permutation_app; [|exact IH].
    apply perm_flat_map, sorted_perm.
  - unfold group. rewrite flatten_fold. cbn [flatten flat_map app].
    rewrite found_ids by apply sorted_ids_incl.
    apply sorted_perm.
Qed.

(** ** The generator and the entry point, further *)

(** [generate_pb_docs] prints its progress line first, returns a document
    for every library the provider hands over (the lookup [bp[0]] never lands
    on an empty list), and raises exactly what the provider raised. *)
Theorem generate_pb_docs_outcome (library : result (list ActorBlueprint.t)) :
  fst (generate_pb_docs library) = ["Generating API blueprint documentation..."]
  /\ match library with
     | Ok lib => snd (generate_pb_docs library) = Ok (document_text (sections lib))
     | Raise e => snd (generate_pb_docs library) = Raise e
     end.
Proof.
  destruct library as [lib|e]; [|now split].
  now rewrite generate_pb_docs_run.
Qed.

(** Every document starts with the same introduction, the heading
    [#Blueprint Library], two paragraphs, the [py] code sample and the link
    line; for an empty library the document is that introduction and nothing
    more. *)
Theorem document_starts_with_intro (lib : list ActorBlueprint.t) :
  snd (generate_pb_docs (Ok [])) = Ok intro_text
  /\ (exists rest, snd (generate_pb_docs (Ok lib)) = Ok (intro_text ++ rest))
  /\ intro_text
     = Py.nl ++ "#Blueprint Library" ++ Py.nl ++
       "The Blueprint Library ([`carla.BlueprintLibrary`](../python_api/#carlablueprintlibrary-class)) " ++
       "is a summary of all [`carla.ActorBlueprint`](../python_api/#carla.ActorBlueprint) " ++
       "and its attributes ([`carla.ActorAttribute`](../python_api/#carla.ActorAttribute)) " ++
       "available to the user in CARLA.  " ++ Py.nl ++
       Py.nl ++
       "Here is an example code for printing all actor blueprints and their attributes:  " ++
       Py.nl ++
       "```py" ++ Py.nl ++ example_code ++ Py.nl ++ "```" ++ Py.nl ++ "  " ++ Py.nl ++
       "Check out the [introduction to blueprints](core_actors.md).  " ++ Py.nl.
Proof.
  split; [|split].
  - rewrite generate_pb_docs_run. cbn [snd].
    change (document_text (sections [])) with (intro_text ++ EmptyString).
    now rewrite append_empty_r.
  - rewrite generate_pb_docs_run. now eexists.
  - vm_compute. reflexivity.
Qed.

Lemma main_exit_status_aux (library : result (list ActorBlueprint.t))
    (write : result unit) :
  exit_status (ending (main library write)) = 0
  <-> library = Raise RuntimeError
      \/ exists lib u, library = Ok lib /\ write = Ok u.
Proof.
  unfold main. destruct library as [lib|e].
  - rewrite generate_pb_docs_run. destruct write as [u|e]; cbn.
    + split; [intros _; right; now exists lib, u | reflexivity].
    + split; [discriminate | intros [H|(l & u & _ & H)]; discriminate].
  - destruct e; cbn; (split; [try discriminate; now left|]);
      try reflexivity; intros [H|(l & u & H & _)]; discriminate.
Qed.

(** The status of [main] is 0 in two cases only: the provider raised
    [RuntimeError], or the document was generated and written. *)
Theorem main_exit_status (library : result (list ActorBlueprint.t))
    (write : result unit) :
  exit_status (ending (main library write)) = 0
  <-> library = Raise RuntimeError
      \/ exists lib u, library = Ok lib /\ write = Ok u.
Proof. apply main_exit_status_aux. Qed.

Lemma main_exit_status_witness :
  exit_status (ending (main (Ok []) (Ok tt))) = 0.
Proof.
  apply main_exit_status. right. now exists [], tt.
Defined.

(** When all goes well [main] writes the document [generate_pb_docs]
    returned, as it is, and prints [Done!] last. [Done!] is printed by the
    runs that return and by no other, and a run that returns has written the
    whole document. *)
Theorem main_writes_the_document (library : result (list ActorBlueprint.t))
    (write : result unit) (lib : list ActorBlueprint.t) (u : unit) :
  main (Ok lib) (Ok u)
  = mkRun ["Generating API blueprint documentation..."; "Done!"]
      (Some (document_text (sections lib))) Returned
  /\ (In "Done!" (stdout (main library write))
      <-> ending (main library write) = Returned)
  /\ (ending (main library write) = Returned ->
      exists lib', library = Ok lib'
        /\ bp_library_md (main library write) = Some (document_text (sections lib'))).
Proof.
  split; [|split].
  - unfold main. now rewrite generate_pb_docs_run.
  - unfold main. destruct library as [l|e].
    + rewrite generate_pb_docs_run. destruct write; cbn.
      * split; [reflexivity | intros _; right; now left].
      * split; [intros [H|[]]; discriminate | discriminate].
    + destruct e; cbn; (split; [|discriminate]);
        intros H; repeat (destruct H as [H|H]; [discriminate|]); now elim H.
  - unfold main. destruct library as [l|e].
    + rewrite generate_pb_docs_run. destruct write; cbn; [|discriminate].
      intros _. now exists l.
    + destruct e; cbn; discriminate.
Qed.

Lemma main_writes_the_document_witness :
  ending (main (Ok []) (Ok tt)) = Returned
  /\ bp_library_md (main (Ok []) (Ok tt)) = Some (document_text (sections [])).
Proof.
  split; [reflexivity|].
  destruct (main_writes_the_document (Ok []) (Ok tt) [] tt) as (_ & _ & H).
  destruct (H eq_refl) as (lib' & [= <-] & Hmd). exact Hmd.
Defined.

(** Only [RuntimeError] from [generate_pb_docs] is caught: any other
    exception of the provider, and any exception raised while the file is
    opened or written, leaves [main] uncaught, with nothing printed after the
    progress line. *)
Theorem only_runtime_error_is_caught (e : exn) (write : result unit)
    (lib : list ActorBlueprint.t) (He : e <> RuntimeError) :
  (ending (main (Raise e) write) = Uncaught e
   /\ stdout (main (Raise e) write) = ["Generating API blueprint documentation..."])
  /\ (forall e',
        ending (main (Ok lib) (Raise e')) = Uncaught e'
        /\ stdout (main (Ok lib) (Raise e'))
           = ["Generating API blueprint documentation..."]).
Proof.
  split.
  - destruct e; [now elim He | | | ]; now split.
  - intros e'. unfold main. rewrite generate_pb_docs_run. now split.
Qed.

Lemma only_runtime_error_is_caught_witness :
  IndexError <> RuntimeError
  /\ ending (main (Raise IndexError) (Ok tt)) = Uncaught IndexError.
Proof.
  split; [discriminate|].
  destruct (only_runtime_error_is_caught IndexError (Ok tt) []) as ((H & _) & _);
    [discriminate|].
  exact H.
Defined.

(** Without the client library's egg the script stops before
    anything else happens: it prints the five-line notice that names the
    file it looked for and exits with status 0, whatever the import, the
    simulator and the file system would have done. *)
Theorem script_without_egg (major minor : Z) (os_name : string)
    (glob : string -> list string) (sys_path : list string)
    (import_carla : result unit)
    (library : result (list ActorBlueprint.t)) (write : result unit)
    (Hglob : glob ("../carla/dist/" ++ carla_lib_name major minor os_name) = []) :
  script major minor os_name glob sys_path import_carla library write
  = mkRun (egg_diagnostic (carla_lib_name major minor os_name)) None (SysExit 0)
  /\ length (egg_diagnostic (carla_lib_name major minor os_name)) = 5%nat.
Proof.
  unfold script, locate_carla. now rewrite Hglob.
Qed.

Lemma script_without_egg_witness :
  stdout (script 3 8 "posix" (fun _ => []) [] (Ok tt) (Ok []) (Ok tt))
  = [Py.nl ++ "  [ERROR] Could not find " ++ Py.dq ++
     "carla-*3.8-linux-x86_64.egg" ++ Py.dq;
     "          Blueprint library docs will not be generated";
     " .---------------------------------------------------.";
     "  |     Make sure the python client is compiled!      |";
     "  '---------------------------------------------------'" ++ Py.nl].
Proof.
  destruct (script_without_egg 3 8 "posix" (fun _ => []) [] (Ok tt) (Ok []) (Ok tt)
              eq_refl) as (H & _).
  now rewrite H.
Defined.

(** The script ends with status 0 in three cases only: no egg was found;
    or an egg was found, the import went through, and either the simulator
    could not be reached or the document was written. When an egg is found
    the first match goes to the end of [sys.path]; when the import then
    raises, the run ends on that exception, status 1, with nothing printed. *)
Theorem script_exit_status (major minor : Z) (os_name : string)
    (glob : string -> list string) (sys_path : list string)
    (import_carla : result unit)
    (library : result (list ActorBlueprint.t)) (write : result unit) :
  (exit_status
     (ending (script major minor os_name glob sys_path import_carla library write)) = 0
   <-> glob ("../carla/dist/" ++ carla_lib_name major minor os_name) = []
       \/ ((exists u, import_carla = Ok u)
           /\ (library = Raise RuntimeError
               \/ exists lib u, library = Ok lib /\ write = Ok u)))
  /\ (forall egg others,
        glob ("../carla/dist/" ++ carla_lib_name major minor os_name) = egg :: others ->
        locate_carla major minor os_name glob sys_path = Located (sys_path ++ [egg])
        /\ forall e, import_carla = Raise e ->
             script major minor os_name glob sys_path import_carla library write
             = mkRun [] None (Uncaught e)
             /\ exit_status (Uncaught e) = 1).
Proof.
  split.
  - unfold script, locate_carla.
    destruct (glob ("../carla/dist/" ++ carla_lib_name major minor os_name)) as [|egg l].
    + cbn. split; [now left | reflexivity].
    + destruct import_carla as [u|e].
      * rewrite main_exit_status_aux. split.
        -- intros H. right. split; [now exists u | exact H].
        -- intros [H|[_ H]]; [discriminate | exact H].
      * cbn. split; [discriminate|].
        intros [H|[(u & H) _]]; discriminate.
  - intros egg others H. unfold script, locate_carla. rewrite H.
    split; [reflexivity|]. intros e ->. now split.
Qed.

Lemma script_exit_status_witness :
  script 3 8 "posix" (fun _ => ["../carla/dist/carla-0.9.15-py3.8-linux-x86_64.egg"])
    [] (Raise ImportError) (Ok []) (Ok tt)
  = mkRun [] None (Uncaught ImportError).
Proof.
  destruct (script_exit_status 3 8 "posix"
              (fun _ => ["../carla/dist/carla-0.9.15-py3.8-linux-x86_64.egg"])
              [] (Raise ImportError) (Ok []) (Ok tt)) as (_ & H).
  destruct (H _ _ eq_refl) as (_ & H').
  destruct (H' ImportError eq_refl) as (H'' & _). exact H''.
Defined.

(** One attribute makes one line and leaves the depth where it was (at a
    depth that is not negative): the indentation of the depth, the bullet, the
    identifier between backticks, the type in italics between parentheses,
    the note [- Modifiable] for an attribute that can be modified and for no
    other, and a line break. *)
Theorem render_attr_line (attr : ActorAttribute.t) (s e : string) (d : Z)
    (Hdepth : 0 <= d) :
  render_attr attr (mkMarkdownFile s d e)
  = (tt, mkMarkdownFile
           (s ++ indentation d ++ "- `" ++ ActorAttribute.id attr ++ "` (_" ++
            ActorAttribute.type attr ++ "_)" ++
            (if ActorAttribute.is_modifiable attr
             then " <sub>_- Modifiable_</sub>" else EmptyString) ++
            Py.nl)
           d e).
Proof.
  unfold render_attr, bind.
  rewrite list_push_run. change (Py.truthy (code (ActorAttribute.id attr))) with true.
  cbv beta iota. rewrite text_run.
  assert (Hd : Z.max (d + 1 - 1) 0 = d) by lia.
  destruct (ActorAttribute.is_modifiable attr).
  - rewrite text_run, list_popn_run. unfold appended. cbn [_data _list_depth endl].
    rewrite Hd. f_equal. f_equal. rewrite !append_assoc. f_equal. f_equal.
    cbn. rewrite !append_assoc. reflexivity.
  - unfold ret. rewrite list_popn_run. unfold appended. cbn [_data _list_depth endl].
    rewrite Hd. f_equal. f_equal. rewrite !append_assoc. f_equal. f_equal.
    cbn. rewrite !append_assoc. reflexivity.
Qed.

Lemma render_attr_line_witness :
  0 <= 2
  /\ _data (exec (render_attr (ActorAttribute.mk "speed" "Float" true))
              (mkMarkdownFile EmptyString 2 ("  " ++ Py.nl)))
     = "        - `speed` (_Float_) <sub>_- Modifiable_</sub>" ++ Py.nl.
Proof.
  split; [lia|].
  unfold exec.
  rewrite (render_attr_line (ActorAttribute.mk "speed" "Float" true)
             EmptyString ("  " ++ Py.nl) 2); [reflexivity | lia].
Defined.
